(** * dify-whatsapp-bot: the webhook endpoint and the direct-send tool

    A shallow embedding of [endpoints/whatsapp-bot.py],
    [tools/send_message.py] and [tools/whatsapp_provider.py].

    - A Python [str] is a list of Unicode code points ([list N]); [bytes]
      is a list of octets.
    - Values that arrive over the network (the webhook payload, the App's
      response, the Graph API's response) are untyped: they are [pyval]s,
      and an operation applied to a value of the wrong shape raises, as it
      does in Python.  JSON numbers with a fraction are not modelled.
    - Values that come from the plugin's configuration (settings,
      credentials, tool parameters) are typed by the plugin's manifest:
      they are optional strings.  The code does not check these types;
      [UntypedEndpoint] and [UntypedTool] read the configuration untyped
      and agree with the typed reading on values of the declared types.
    - The session's storage is a [gmap]; every call that leaves the process
      (storage, App invocation, HTTP POST) is recorded in a trace.
    - A generator is run to its end: the tool is the list of the messages
      it yields. *)

From Stdlib Require Import ZArith NArith List String Ascii Lia Bool DecimalString.
From stdpp Require Import base option list numbers gmap.

Local Open Scope N_scope.

(** ** Python strings *)

Abbreviation pystr := (list N) (only parsing).
Abbreviation bytes := (list N) (only parsing).

(** A string literal of the source, as code points. *)
Definition lit (s : string) : list N :=
  List.map N_of_ascii (list_ascii_of_string s).

(** [str.isspace] on one character: the code points CPython's
    [_PyUnicode_IsWhitespace] accepts; [str.strip()] removes these. *)
Definition is_whitespace (c : N) : bool :=
  ((0x09 <=? c) && (c <=? 0x0D)) || ((0x1C <=? c) && (c <=? 0x20))
  || (c =? 0x85) || (c =? 0xA0) || (c =? 0x1680)
  || ((0x2000 <=? c) && (c <=? 0x200A))
  || (c =? 0x2028) || (c =? 0x2029) || (c =? 0x202F) || (c =? 0x205F)
  || (c =? 0x3000).

Fixpoint lstrip (s : list N) : list N :=
  match s with
  | c :: s' => if is_whitespace c then lstrip s' else s
  | [] => []
  end.

Definition rstrip (s : list N) : list N := rev (lstrip (rev s)).

(** [s.strip()] *)
Definition strip (s : list N) : list N := rstrip (lstrip s).

Fixpoint starts_with (needle s : list N) : bool :=
  match needle, s with
  | [], _ => true
  | a :: needle', b :: s' => (a =? b) && starts_with needle' s'
  | _ :: _, [] => false
  end.

(** [needle in s] for two strings. *)
Fixpoint contains (needle s : list N) : bool :=
  starts_with needle s ||
  match s with
  | [] => false
  | _ :: s' => contains needle s'
  end.

(** The character class [0-9] of the pattern [[^0-9]]: ASCII digits only. *)
Definition is_digit (c : N) : bool := (0x30 <=? c) && (c <=? 0x39).

(** [re.sub(r"[^0-9]", "", to_raw)] *)
Definition normalize (to_raw : list N) : list N := List.filter is_digit to_raw.

(** ** UTF-8

    [str.encode('utf-8')] and [bytes.decode('utf-8')] with the default
    strict error handling: a surrogate code point cannot be encoded, and
    the decoder refuses overlong forms, surrogates, stray continuation
    octets and values above U+10FFFF.  [None] stands for the raised
    [UnicodeEncodeError] / [UnicodeDecodeError]. *)

Definition utf8_encode_char (c : N) : option (list N) :=
  if c <? 0x80 then Some [c]
  else if c <? 0x800 then Some [0xC0 + c / 64; 0x80 + c mod 64]
  else if c <? 0x10000 then
    if (0xD800 <=? c) && (c <=? 0xDFFF) then None
    else Some [0xE0 + c / 4096; 0x80 + (c / 64) mod 64; 0x80 + c mod 64]
  else if c <? 0x110000 then
    Some [0xF0 + c / 262144; 0x80 + (c / 4096) mod 64;
          0x80 + (c / 64) mod 64; 0x80 + c mod 64]
  else None.

Fixpoint utf8_encode (s : list N) : option (list N) :=
  match s with
  | [] => Some []
  | c :: s' =>
      match utf8_encode_char c, utf8_encode s' with
      | Some b, Some bs => Some (b ++ bs)
      | _, _ => None
      end
  end.

Definition is_continuation (b : N) : bool := (0x80 <=? b) && (b <? 0xC0).

Fixpoint utf8_decode (bs : list N) : option (list N) :=
  match bs with
  | [] => Some []
  | b0 :: r0 =>
      if b0 <? 0x80 then cons b0 <$> utf8_decode r0
      else if b0 <? 0xC2 then None
      else if b0 <? 0xE0 then
        match r0 with
        | b1 :: r1 =>
            if is_continuation b1
            then cons ((b0 - 0xC0) * 64 + (b1 - 0x80)) <$> utf8_decode r1
            else None
        | _ => None
        end
      else if b0 <? 0xF0 then
        match r0 with
        | b1 :: b2 :: r2 =>
            let c := (b0 - 0xE0) * 4096 + (b1 - 0x80) * 64 + (b2 - 0x80) in
            if is_continuation b1 && is_continuation b2
               && (0x800 <=? c) && negb ((0xD800 <=? c) && (c <=? 0xDFFF))
            then cons c <$> utf8_decode r2
            else None
        | _ => None
        end
      else if b0 <? 0xF5 then
        match r0 with
        | b1 :: b2 :: b3 :: r3 =>
            let c := (b0 - 0xF0) * 262144 + (b1 - 0x80) * 4096
                     + (b2 - 0x80) * 64 + (b3 - 0x80) in
            if is_continuation b1 && is_continuation b2 && is_continuation b3
               && (0x10000 <=? c) && (c <? 0x110000)
            then cons c <$> utf8_decode r3
            else None
        | _ => None
        end
      else None
  end.

(** ** Untyped Python values

    A dict is represented by its items, in insertion order, with distinct
    keys. *)

#[warnings="-register-all"]
Inductive pyval :=
| PNone
| PBool (b : bool)
| PInt (n : Z)
| PStr (s : list N)
| PList (l : list pyval)
| PDict (d : list (list N * pyval)).

(** Truth value of an object, as [if x:], [not x] and [x or y] test it. *)
Definition truthy (v : pyval) : bool :=
  match v with
  | PNone => false
  | PBool b => b
  | PInt n => negb (n =? 0)%Z
  | PStr s => negb (bool_decide (s = []))
  | PList l => match l with [] => false | _ => true end
  | PDict d => match d with [] => false | _ => true end
  end.

(** [a or b] *)
Definition py_or (a b : pyval) : pyval := if truthy a then a else b.

Definition is_none (v : pyval) : bool :=
  match v with PNone => true | _ => false end.

(** [v == s] for a string literal [s]. *)
Definition eq_str (v : pyval) (s : list N) : bool :=
  match v with PStr t => bool_decide (t = s) | _ => false end.

(** [v == n] for an integer literal [n]; a [bool] compares as 0 or 1. *)
Definition eq_int (v : pyval) (n : Z) : bool :=
  match v with
  | PInt m => (m =? n)%Z
  | PBool b => ((if b then 1 else 0) =? n)%Z
  | _ => false
  end.

(** Lookup in a dict, represented by its items. *)
Fixpoint assoc (d : list (list N * pyval)) (k : list N) : option pyval :=
  match d with
  | [] => None
  | (k', v) :: d' => if bool_decide (k' = k) then Some v else assoc d' k
  end.

Definition has_key (d : list (list N * pyval)) (k : list N) : bool :=
  match assoc d k with Some _ => true | None => false end.

(** Decimal digits of an integer, as [str(n)] prints it. *)
Definition str_int (n : Z) : list N :=
  lit (NilZero.string_of_int (Z.to_int n)).

(** ** Exceptions *)

Inductive exn :=
| AttributeError     (* a method looked up on an object that lacks it *)
| TypeError          (* not iterable, not a container, unhashable *)
| UnicodeError       (* encode or decode failed *)
| BadRequest         (* werkzeug: the body could not be loaded as JSON *)
| IOError.           (* a collaborator (body stream, storage, network) failed *)

Inductive result (A : Type) :=
| Ok (a : A)
| Raise (e : exn).
Arguments Ok {A} a.
Arguments Raise {A} e.

#[global] Instance result_ret : MRet result := fun _ a => Ok a.
#[global] Instance result_bind : MBind result := fun _ _ f m =>
  match m with Ok a => f a | Raise e => Raise e end.

(** [v.get(k)]: a dict answers, [None] for a missing key; any other value
    has no [get]. *)
Definition py_get (v : pyval) (k : list N) : result pyval :=
  match v with
  | PDict d => Ok (default PNone (assoc d k))
  | _ => Raise AttributeError
  end.

(** [v.get(k, dflt)] *)
Definition py_get_default (v : pyval) (k : list N) (dflt : pyval) : result pyval :=
  match v with
  | PDict d => Ok (default dflt (assoc d k))
  | _ => Raise AttributeError
  end.

(** The items [for x in v] visits: the elements of a list, the keys of a
    dict, the characters of a string; anything else is not iterable. *)
Definition py_iter (v : pyval) : result (list pyval) :=
  match v with
  | PList l => Ok l
  | PDict d => Ok (List.map (fun kv => PStr kv.1) d)
  | PStr s => Ok (List.map (fun c => PStr [c]) s)
  | _ => Raise TypeError
  end.

(** [s in v] for a string literal [s]: key of a dict, element of a list,
    substring of a string; anything else is not a container. *)
Definition str_in (s : list N) (v : pyval) : result bool :=
  match v with
  | PDict d => Ok (has_key d s)
  | PList l => Ok (existsb (fun x => eq_str x s) l)
  | PStr t => Ok (contains s t)
  | _ => Raise TypeError
  end.

(** [(v or '').strip()] for an optional string of the configuration. *)
Definition or_empty_strip (v : option (list N)) : list N :=
  strip (default [] v).

Definition nonempty (s : list N) : bool :=
  match s with [] => false | _ => true end.

(** ** Collaborators and the world

    What the interpreter and the host supply.  [repr_container] is the
    built-in [str()] of a list or dict, [exn_message] is [str(e)];
    [chat_invoke] is [session.app.chat.invoke], [requests_post] is
    [requests.post]; the two flags say whether the storage backend fails. *)

Record HttpRequest := {
  url : list N;
  headers : list (list N * list N);
  payload : pyval;            (* the JSON document sent as the body *)
  timeout : Z
}.

Record HttpResponse := {
  status_code : Z;
  json_body : option pyval;   (* [None]: [resp.json()] raises *)
  text : list N
}.

Record Runtime := {
  repr_container : pyval -> list N;
  exn_message : exn -> list N;
  chat_invoke : list (list N * pyval) -> result pyval;
  storage_get_fails : list N -> bool;
  storage_set_fails : list N -> bool;
  requests_post : HttpRequest -> result HttpResponse
}.

(** [str(v)], also what an f-string writes for [{v}]. *)
Definition py_str (rt : Runtime) (v : pyval) : list N :=
  match v with
  | PNone => lit "None"
  | PBool true => lit "True"
  | PBool false => lit "False"
  | PInt n => str_int n
  | PStr s => s
  | PList _ | PDict _ => repr_container rt v
  end.

Inductive Event :=
| StorageGet (key : list N)
| StorageSet (key : list N) (value : list N)
| AppInvoke (params : list (list N * pyval))
| HttpPost (req : HttpRequest).

Record World := {
  storage : gmap (list N) (list N);
  trace : list Event             (* oldest first *)
}.

Definition log (e : Event) (w : World) : World :=
  {| storage := storage w; trace := trace w ++ [e] |}.

(** Computations that read and write the world and may raise. *)
Definition M (A : Type) : Type := World -> result A * World.

#[global] Instance M_ret : MRet M := fun _ a w => (Ok a, w).
#[global] Instance M_bind : MBind M := fun _ _ f m w =>
  match m w with
  | (Ok a, w') => f a w'
  | (Raise e, w') => (Raise e, w')
  end.

Definition lift {A} (r : result A) : M A := fun w => (r, w).

(** [try: m except Exception: h] *)
Definition try_except {A} (m : M A) (h : exn -> M A) : M A := fun w =>
  match m w with
  | (Ok a, w') => (Ok a, w')
  | (Raise e, w') => h e w'
  end.

(** [for x in xs: body x] *)
Fixpoint for_each {A} (xs : list A) (body : A -> M unit) : M unit :=
  match xs with
  | [] => mret tt
  | x :: xs' => body x ;; for_each xs' body
  end.

(** [session.storage.get(key)]: the stored bytes, nothing for a key that
    was never set (a host that raises for such a key is one whose read
    fails: the bridge reads both as no conversation). *)
Definition storage_get (rt : Runtime) (key : list N) : M (option (list N)) :=
  fun w =>
    if storage_get_fails rt key then (Raise IOError, log (StorageGet key) w)
    else (Ok (storage w !! key), log (StorageGet key) w).

(** [session.storage.set(key, value)] *)
Definition storage_set (rt : Runtime) (key value : list N) : M unit :=
  fun w =>
    if storage_set_fails rt key then (Raise IOError, log (StorageSet key value) w)
    else (Ok tt, {| storage := <[key := value]> (storage w);
                    trace := trace w ++ [StorageSet key value] |}).

Definition app_chat_invoke (rt : Runtime) (params : list (list N * pyval)) : M pyval :=
  fun w => (chat_invoke rt params, log (AppInvoke params) w).

Definition http_post (rt : Runtime) (req : HttpRequest) : M HttpResponse :=
  fun w => (requests_post rt req, log (HttpPost req) w).

(** ** The webhook endpoint: [WhatsappBotEndpoint] *)

Record Response := {
  body : list N;
  status : Z;
  content_type : list N
}.

(** The selector of the backend App in the settings. *)
Inductive AppSetting :=
| AppUnset                                          (* missing, [None] *)
| AppString (s : list N)
| AppMapping (app_id id : option (list N))          (* its two optional keys *)
| AppOther.                                         (* any other truthy object *)

Record Settings := {
  access_token : option (list N);
  phone_number_id : option (list N);
  app : AppSetting;
  verify_token : option (list N)
}.

(** What reading the body of a request yields. *)
Inductive BodyData :=
| Decodes (v : pyval)      (* [json.loads] accepts the data *)
| Undecodable              (* [json.loads] raises [ValueError] *)
| ReadError.               (* reading the stream itself raises *)

Record Request := {
  method : list N;
  args : list (list N * list N);     (* the query parameters *)
  is_json : bool;                    (* the mimetype says JSON *)
  data : BodyData
}.

(** werkzeug's [Request.get_json(force=False, silent=...)]: with [silent]
    a body that is not JSON yields [None] instead of raising. *)
Definition get_json (silent : bool) (r : Request) : result pyval :=
  if negb (is_json r) then (if silent then Ok PNone else Raise BadRequest)
  else match data r with
       | Decodes v => Ok v
       | Undecodable => if silent then Ok PNone else Raise BadRequest
       | ReadError => Raise IOError
       end.

Definition text_response (b : string) (st : Z) : Response :=
  {| body := lit b; status := st; content_type := lit "text/plain" |}.

(** The methods of the class, with the parts of [_handle_webhook] and
    [_invoke_app_reply] that the properties name. *)
Module WhatsappBotEndpoint.

Definition _ok : Response := text_response "ok" 200.

(** [a or b] on optional strings: [None] and the empty string are false. *)
Definition str_or (a b : option (list N)) : option (list N) :=
  match a with
  | Some (_ :: _) => a
  | _ => b
  end.

Fixpoint lookup_arg (l : list (list N * list N)) (k : list N) : option (list N) :=
  match l with
  | [] => None
  | (k', v) :: l' => if bool_decide (k' = k) then Some v else lookup_arg l' k
  end.

Definition _handle_verify (r : Request) (settings : Settings) : Response :=
  let mode :=
    or_empty_strip (str_or (lookup_arg (args r) (lit "hub.mode"))
                           (lookup_arg (args r) (lit "mode"))) in
  let token :=
    or_empty_strip (str_or (lookup_arg (args r) (lit "hub.verify_token"))
                           (lookup_arg (args r) (lit "verify_token"))) in
  let challenge := lookup_arg (args r) (lit "hub.challenge") in
  let expected_token := or_empty_strip (verify_token settings) in
  match challenge with
  | Some c =>
      if bool_decide (mode = lit "subscribe") && nonempty expected_token
         && bool_decide (token = expected_token)
      then {| body := c; status := 200; content_type := lit "text/plain" |}
      else text_response "Forbidden" 403
  | None => text_response "Forbidden" 403
  end.

Definition _extract_text (message : pyval) : result pyval :=
  message_type ← py_get message (lit "type");
  if eq_str message_type (lit "text") then
    text ← py_get message (lit "text");
    py_get (py_or text (PDict [])) (lit "body")
  else Ok PNone.

Definition _get_app_id (app_setting : AppSetting) : option (list N) :=
  match app_setting with
  | AppUnset => None
  | AppString s =>
      let app_id := strip s in
      if nonempty app_id then Some app_id else None
  | AppMapping a i =>
      let app_id := or_empty_strip (str_or (str_or a i) (Some [])) in
      if nonempty app_id then Some app_id else None
  | AppOther => None
  end.

(** The keyword arguments handed to [session.app.chat.invoke]. *)
Definition invoke_params (app_id : list N) (query : pyval)
    (identify_inputs : list (list N * pyval))
    (conversation_id : option (list N)) : list (list N * pyval) :=
  [ (lit "app_id", PStr app_id);
    (lit "query", query);
    (lit "inputs", PDict identify_inputs);
    (lit "response_mode", PStr (lit "blocking")) ]
  ++ match conversation_id with
     | Some (c :: cs) => [ (lit "conversation_id", PStr (c :: cs)) ]
     | _ => []
     end.

(** The read of the stored conversation id, lines 73-79. *)
Definition read_conversation_id (rt : Runtime) (conversation_key : list N)
  : M (option (list N)) :=
  try_except
    (raw ← storage_get rt conversation_key;
     match raw with
     | Some (b :: bs) =>
         match utf8_decode (b :: bs) with
         | Some s => mret (Some s)
         | None => lift (Raise UnicodeError)
         end
     | _ => mret None
     end)
    (fun _ => mret None).

Definition _invoke_app_reply (rt : Runtime) (app_id : list N) (query : pyval)
    (identify_inputs : list (list N * pyval)) (conversation_key : list N)
  : M (option (list N)) :=
  try_except
    (conversation_id ← read_conversation_id rt conversation_key;
     result ← app_chat_invoke rt
                (invoke_params app_id query identify_inputs conversation_id);
     a1 ← lift (py_get result (lit "answer"));
     a2 ← lift (py_get result (lit "output_text"));
     a3 ← lift (py_get result (lit "message"));
     let answer := py_or (py_or a1 a2) a3 in
     new_conversation_id ← lift (py_get result (lit "conversation_id"));
     (if truthy new_conversation_id then
        try_except
          (match utf8_encode (py_str rt new_conversation_id) with
           | Some b => storage_set rt conversation_key b
           | None => lift (Raise UnicodeError)
           end)
          (fun _ => mret tt)
      else mret tt) ;;
     mret (if is_none answer then None else Some (py_str rt answer)))
    (fun _ => mret None).

(** The request [_send_whatsapp_text] posts. *)
Definition whatsapp_request (access_token phone_number_id : list N)
    (to body_text : pyval) (seconds : Z) : HttpRequest :=
  {| url := lit "https://graph.facebook.com/v24.0/" ++ phone_number_id
            ++ lit "/messages";
     headers := [ (lit "Authorization", lit "Bearer " ++ access_token);
                  (lit "Content-Type", lit "application/json") ];
     payload := PDict [ (lit "messaging_product", PStr (lit "whatsapp"));
                        (lit "to", to);
                        (lit "type", PStr (lit "text"));
                        (lit "text", PDict [ (lit "body", body_text) ]) ];
     timeout := seconds |}.

Definition _send_whatsapp_text (rt : Runtime) (access_token phone_number_id : list N)
    (to_wa_id body_text : pyval) : M unit :=
  try_except
    (http_post rt (whatsapp_request access_token phone_number_id
                     to_wa_id body_text 10) ;;
     mret tt)
    (fun _ => mret tt).

(** The reply text of lines 173-183: the App's answer, else the inbound
    text. *)
Definition choose_reply (reply_text : option (list N)) (text_body : pyval) : pyval :=
  match reply_text with
  | Some (c :: cs) => PStr (c :: cs)
  | _ => text_body
  end.

(** Line 171: the storage key of a conversation. *)
Definition conversation_key (rt : Runtime) (phone_number_id : list N)
    (sender_wa_id : pyval) : list N :=
  lit "whatsapp:" ++ phone_number_id ++ lit ":" ++ py_str rt sender_wa_id.

(** Lines 165-168. *)
Definition identify_inputs (phone_number_id : list N) (sender_wa_id : pyval)
  : list (list N * pyval) :=
  [ (lit "whatsapp_user_id", sender_wa_id);
    (lit "phone_number_id", PStr phone_number_id) ].

(** Lines 173-180: the candidate reply, asked of the App when one is
    configured. *)
Definition app_reply (rt : Runtime) (phone_number_id : list N)
    (app_id : option (list N)) (sender_wa_id text_body : pyval)
  : M (option (list N)) :=
  match app_id with
  | Some (c :: cs) =>
      _invoke_app_reply rt (c :: cs) text_body
        (identify_inputs phone_number_id sender_wa_id)
        (conversation_key rt phone_number_id sender_wa_id)
  | _ => mret None
  end.

(** The body of the innermost loop, lines 159-191. *)
Definition process_message (rt : Runtime) (access_token phone_number_id : list N)
    (app_id : option (list N)) (can_reply : bool) (message : pyval) : M unit :=
  sender_wa_id ← lift (py_get message (lit "from"));
  text_body ← lift (_extract_text message);
  if negb (truthy sender_wa_id) || is_none text_body then mret tt
  else
    reply_text ← app_reply rt phone_number_id app_id sender_wa_id text_body;
    let reply_text := choose_reply reply_text text_body in
    if can_reply && truthy reply_text
    then _send_whatsapp_text rt access_token phone_number_id sender_wa_id reply_text
    else mret tt.

(** The walk over entries, changes and messages, lines 154-191. *)
Definition walk (rt : Runtime) (access_token phone_number_id : list N)
    (app_id : option (list N)) (can_reply : bool) (payload : pyval) : M unit :=
  entries ← lift (py_get_default payload (lit "entry") (PList []) ≫= py_iter);
  for_each entries (fun entry =>
    changes ← lift (py_get_default entry (lit "changes") (PList []) ≫= py_iter);
    for_each changes (fun change =>
      value ← lift (py_get change (lit "value"));
      messages ← lift (py_get (py_or value (PDict [])) (lit "messages"));
      messages ← lift (py_iter (py_or messages (PList [])));
      for_each messages
        (process_message rt access_token phone_number_id app_id can_reply))).

Definition _handle_webhook (rt : Runtime) (r : Request) (settings : Settings)
  : M Response :=
  match get_json true r with
  | Raise _ => mret (text_response "Bad Request" 400)
  | Ok parsed =>
      let payload := py_or parsed (PDict []) in
      let access_token := or_empty_strip (access_token settings) in
      let phone_number_id := or_empty_strip (phone_number_id settings) in
      let app_id := _get_app_id (app settings) in
      if negb (truthy payload) then mret _ok
      else
        has_entry ← lift (str_in (lit "entry") payload);
        if negb has_entry then mret _ok
        else
          let can_reply := nonempty access_token && nonempty phone_number_id in
          try_except
            (walk rt access_token phone_number_id app_id can_reply payload ;;
             mret _ok)
            (fun _ => mret _ok)
  end.

Definition _invoke (rt : Runtime) (r : Request) (settings : Settings)
  : M Response :=
  if bool_decide (method r = lit "GET") then mret (_handle_verify r settings)
  else if negb (bool_decide (method r = lit "POST"))
  then mret (text_response "Method Not Allowed" 405)
  else _handle_webhook rt r settings.

End WhatsappBotEndpoint.
Import WhatsappBotEndpoint.

(** ** The direct-send tool: [SendMessageTool] *)

Inductive LogStatus := SUCCESS | ERROR.

(** What the tool yields.  A log message built without a [status] carries
    the library's default. *)
Inductive ToolInvokeMessage :=
| LogMessage (label : list N) (log_data : pyval) (log_status : option LogStatus)
| TextMessage (message_text : list N)
| JsonMessage (json : pyval).

Record Credentials := {
  cred_access_token : option (list N);
  cred_phone_number_id : option (list N)
}.

Record ToolParameters := {
  to : option (list N);
  text_param : option (list N)
}.

Definition safe_json (resp : HttpResponse) : pyval :=
  match json_body resp with
  | Some v => v
  | None => PDict [ (lit "text", PStr (firstn 500 (text resp))) ]
  end.

Definition extract_api_error (body : pyval) : result (option pyval) :=
  match body with
  | PDict d =>
      if has_key d (lit "error") then
        err0 ← py_get body (lit "error");
        let err := py_or err0 (PDict []) in
        code ← py_get err (lit "code");
        type ← py_get err (lit "type");
        message ← py_get err (lit "message");
        error_subcode ← py_get err (lit "error_subcode");
        Ok (Some (PDict [ (lit "code", code);
                          (lit "type", type);
                          (lit "message", message);
                          (lit "error_subcode", error_subcode) ]))
      else Ok None
  | _ => Ok None
  end.

Definition hint_token : list N :=
  lit "Invalid or expired access token. Recreate a system user token with proper permissions.".
Definition hint_parameters : list N :=
  lit "Invalid parameters. Verify 'phone_number_id' and that 'to' is a valid international number.".
Definition hint_opt_in : list N :=
  lit "Recipient has not messaged your business recently or is not opted-in. "
  ++ lit "Ensure a recent user-initiated session or use an approved template.".
Definition hint_mismatch : list N :=
  lit "Check that the phone_number_id belongs to your app and Business Account.".
Definition hint_generic : list N :=
  lit "Check Business Account setup, permissions (whatsapp_business_messaging), and recipient format (E.164 without '+').".

Definition opt_in_subcodes : list Z := [2018049; 131000; 131031]%Z.

(** [subcode in {2018049, 131000, 131031}]: the value is hashed first, and
    a list or a dict is unhashable. *)
Definition in_subcode_set (subcode : pyval) : result bool :=
  match subcode with
  | PList _ | PDict _ => Raise TypeError
  | _ => Ok (existsb (eq_int subcode) opt_in_subcodes)
  end.

Definition suggest_fix (api_error : pyval) : result (list N) :=
  code ← py_get api_error (lit "code");
  subcode ← py_get api_error (lit "error_subcode");
  message0 ← py_get api_error (lit "message");
  let message := py_or message0 (PStr []) in
  if eq_int code 190 then Ok hint_token
  else if eq_int code 100 then Ok hint_parameters
  else
    opted_out ← in_subcode_set subcode;
    if (opted_out : bool) then Ok hint_opt_in
    else
      unsupported ← str_in (lit "Unsupported post request") message;
      if (unsupported : bool) then Ok hint_mismatch
      else Ok hint_generic.

(** [wa_message_id] of lines 78-82. *)
Definition wa_message_id (body : pyval) : result pyval :=
  match body with
  | PDict d =>
      match py_or (default PNone (assoc d (lit "messages"))) (PList []) with
      | PList (m :: _) => py_get m (lit "id")
      | _ => Ok PNone
      end
  | _ => Ok PNone
  end.

Definition summary (rt : Runtime) (to : list N) (body : pyval) : list N :=
  match wa_message_id body with
  | Ok id =>
      lit "sent to " ++ to
      ++ (if truthy id then lit " (id: " ++ py_str rt id ++ lit ")" else [])
  | Raise _ => lit "sent to " ++ to
  end.

(** The messages of the [except Exception as e] clause, lines 98-103. *)
Definition exception_messages (rt : Runtime) (e : exn) : list ToolInvokeMessage :=
  [ LogMessage (lit "exception")
      (PDict [ (lit "error", PStr (exn_message rt e)) ]) (Some ERROR);
    TextMessage (lit "Failed to send message due to exception") ].

(** What is yielded once the response is in, lines 59-95. *)
Definition after_response (rt : Runtime) (to : list N) (resp : HttpResponse)
  : list ToolInvokeMessage :=
  let body := safe_json resp in
  let ok := (200 <=? status_code resp)%Z && (status_code resp <? 300)%Z in
  let response_log :=
    LogMessage (lit "send_response")
      (PDict [ (lit "status_code", PInt (status_code resp)); (lit "body", body) ])
      (Some (if ok then SUCCESS else ERROR)) in
  if ok then
    [ response_log;
      JsonMessage (PDict [ (lit "result", PStr (lit "sent"));
                           (lit "to", PStr to);
                           (lit "response", body) ]);
      TextMessage (summary rt to body) ]
  else
    match extract_api_error body with
    | Raise e => response_log :: exception_messages rt e
    | Ok (Some api_error) =>
        if truthy api_error then
          match suggest_fix api_error with
          | Ok hint =>
              [ response_log;
                JsonMessage (PDict [ (lit "error", api_error);
                                     (lit "hint", PStr hint) ]) ]
          | Raise e => response_log :: exception_messages rt e
          end
        else
          [ response_log;
            TextMessage (lit "Failed to send message: HTTP "
                         ++ str_int (status_code resp)) ]
    | Ok None =>
        [ response_log;
          TextMessage (lit "Failed to send message: HTTP "
                       ++ str_int (status_code resp)) ]
    end.

Module SendMessageTool.

(** The messages the tool yields, in order. *)
Definition _invoke (rt : Runtime) (credentials : Credentials)
    (tool_parameters : ToolParameters) : M (list ToolInvokeMessage) :=
  let access_token := or_empty_strip (cred_access_token credentials) in
  let phone_number_id := or_empty_strip (cred_phone_number_id credentials) in
  let to_raw := or_empty_strip (to tool_parameters) in
  let text := or_empty_strip (text_param tool_parameters) in
  if negb (nonempty access_token) || negb (nonempty phone_number_id) then
    mret [ LogMessage (lit "credentials")
             (PDict [ (lit "error", PStr (lit "Missing credentials"));
                      (lit "have_access_token", PBool (nonempty access_token));
                      (lit "have_phone_number_id", PBool (nonempty phone_number_id)) ])
             (Some ERROR);
           TextMessage (lit "Configuration error: missing WhatsApp credentials") ]
  else if negb (nonempty to_raw) || negb (nonempty text) then
    mret [ LogMessage (lit "parameters")
             (PDict [ (lit "error", PStr (lit "Missing required parameters"));
                      (lit "to", PBool (nonempty to_raw));
                      (lit "text", PBool (nonempty text)) ])
             (Some ERROR);
           TextMessage (lit "Missing required parameters: to, text") ]
  else
    let to := normalize to_raw in
    let request :=
      whatsapp_request access_token phone_number_id (PStr to) (PStr text) 20 in
    let request_log :=
      LogMessage (lit "send_request")
        (PDict [ (lit "url", PStr (url request)); (lit "to", PStr to) ]) None in
    try_except
      (resp ← http_post rt request;
       mret (request_log :: after_response rt to resp))
      (fun e => mret (request_log :: exception_messages rt e)).

End SendMessageTool.

(** ** Auxiliary notions of the statements

    What the properties below speak of: the request the bridge will send,
    the effect of persisting an identifier, and the rules as the
    specification words them, to be compared with the code's. *)

(** [d.get(k)] for a key written as a literal. *)
Definition field (d : list (list N * pyval)) (k : string) : pyval :=
  default PNone (assoc d (lit k)).

(** A payload without an [entry] collection: anything but an object that
    has the key. *)
Definition lacks_entry (parsed : pyval) : bool :=
  match parsed with
  | PDict d => negb (has_key d (lit "entry"))
  | _ => true
  end.

(** The payloads that are true and are no container: a number other than
    zero, and [true]. *)
Definition true_scalar (parsed : pyval) : bool :=
  match parsed with
  | PInt n => negb (n =? 0)%Z
  | PBool b => b
  | _ => false
  end.

(** The conversation id that the bridge finds for a key: nothing when the
    read fails, when nothing (or an empty value) is stored, or when the
    stored bytes are not UTF-8. *)
Definition stored_conversation_id (rt : Runtime) (key : list N) (w : World)
  : option (list N) :=
  if storage_get_fails rt key then None
  else match storage w !! key with
       | Some (b :: bs) => utf8_decode (b :: bs)
       | _ => None
       end.

(** The request the bridge sends to the App from world [w]. *)
Definition bridge_request (rt : Runtime) (app_id : list N) (query : pyval)
    (identify_inputs : list (list N * pyval)) (key : list N) (w : World)
  : list (list N * pyval) :=
  invoke_params app_id query identify_inputs (stored_conversation_id rt key w).

(** The world after the bridge has handled a response that carries the
    (true) conversation id [new]. *)
Definition persist (rt : Runtime) (key : list N) (new : pyval) (w : World) : World :=
  if truthy new then
    match utf8_encode (py_str rt new) with
    | Some b => (storage_set rt key b w).2
    | None => w
    end
  else w.

(** The rule as the specification words it: the first of the three fields
    that is present wins, whatever its value. *)
Definition first_present (d : list (list N * pyval)) : pyval :=
  if negb (is_none (field d "answer")) then field d "answer"
  else if negb (is_none (field d "output_text")) then field d "output_text"
  else field d "message".

Definition carries_no_conversation_id (e : Event) : Prop :=
  match e with
  | AppInvoke params => assoc params (lit "conversation_id") = None
  | _ => True
  end.

(** The messages of the missing-parameter exit, lines 31-38. *)
Definition is_parameter_error (m : ToolInvokeMessage) : bool :=
  match m with
  | LogMessage label _ _ => bool_decide (label = lit "parameters")
  | TextMessage t => bool_decide (t = lit "Missing required parameters: to, text")
  | JsonMessage _ => false
  end.

Definition api_error_of (code type message error_subcode : pyval) : pyval :=
  PDict [ (lit "code", code); (lit "type", type); (lit "message", message);
          (lit "error_subcode", error_subcode) ].

(** The table as the specification words it: the first row that applies,
    with [error_subcode] compared to the three numbers and [message]
    searched as a text. *)
Definition hint_table (api_error : pyval) : list N :=
  match api_error with
  | PDict d =>
      if eq_int (field d "code") 190 then hint_token
      else if eq_int (field d "code") 100 then hint_parameters
      else if existsb (eq_int (field d "error_subcode")) opt_in_subcodes
      then hint_opt_in
      else if match field d "message" with
              | PStr s => contains (lit "Unsupported post request") s
              | _ => false
              end
      then hint_mismatch
      else hint_generic
  | _ => hint_generic
  end.

Definition hashable (v : pyval) : bool :=
  match v with PList _ | PDict _ => false | _ => true end.

(** A string, or a value that is false (absent, null, empty, zero). *)
Definition text_or_false (v : pyval) : bool :=
  match v with PStr _ => true | _ => negb (truthy v) end.

(** The rows of the table can all be evaluated: the code settles it, or
    the subcode can be hashed and then either settles it or leaves a
    message that can be searched as a text. *)
Definition lookup_applies (api_error : pyval) : bool :=
  match api_error with
  | PDict d =>
      eq_int (field d "code") 190 || eq_int (field d "code") 100
      || (hashable (field d "error_subcode")
          && (existsb (eq_int (field d "error_subcode")) opt_in_subcodes
              || text_or_false (field d "message")))
  | _ => false
  end.

(** ** Fixtures for the concrete runs *)

(** A host whose App and network are unreachable and whose storage works. *)
Definition offline_runtime : Runtime :=
  {| repr_container := fun _ => lit "<container>";
     exn_message := fun _ => lit "error";
     chat_invoke := fun _ => Raise IOError;
     storage_get_fails := fun _ => false;
     storage_set_fails := fun _ => false;
     requests_post := fun _ => Raise IOError |}.

Definition empty_world : World := {| storage := ∅; trace := [] |}.

Definition valid_settings : Settings :=
  {| access_token := Some (lit "EAAG-token");
     phone_number_id := Some (lit "1098765");
     app := AppUnset;
     verify_token := Some (lit "abc") |}.

Definition post_request (d : BodyData) : Request :=
  {| method := lit "POST"; args := []; is_json := true; data := d |}.

(** A host whose App always answers [response]. *)
Definition answering_runtime (response : pyval) : Runtime :=
  {| repr_container := fun _ => lit "<container>";
     exn_message := fun _ => lit "error";
     chat_invoke := fun _ => Ok response;
     storage_get_fails := fun _ => false;
     storage_set_fails := fun _ => false;
     requests_post := fun _ => Raise IOError |}.

Definition empty_then_text : list (list N * pyval) :=
  [ (lit "answer", PStr []); (lit "output_text", PStr (lit "hi")) ].

(** A host whose App always answers [response] and whose storage refuses
    every write. *)
Definition rejecting_runtime (response : pyval) : Runtime :=
  {| repr_container := fun _ => lit "<container>";
     exn_message := fun _ => lit "error";
     chat_invoke := fun _ => Ok response;
     storage_get_fails := fun _ => false;
     storage_set_fails := fun _ => true;
     requests_post := fun _ => Raise IOError |}.

Definition answer_with_id : list (list N * pyval) :=
  [ (lit "answer", PStr (lit "hi")); (lit "conversation_id", PStr (lit "c-1")) ].

Definition text_message (sender body : string) : pyval :=
  PDict [ (lit "from", PStr (lit sender));
          (lit "type", PStr (lit "text"));
          (lit "text", PDict [ (lit "body", PStr (lit body)) ]) ].

Definition unhashable_subcode_body : pyval :=
  PDict [ (lit "error",
           PDict [ (lit "code", PInt 1);
                   (lit "message", PStr (lit "Unknown error"));
                   (lit "error_subcode", PList []) ]) ].

Definition one_text_message : pyval :=
  PDict [ (lit "entry",
           PList [ PDict [ (lit "changes",
             PList [ PDict [ (lit "value",
               PDict [ (lit "messages",
                        PList [ text_message "1555" "hi" ]) ]) ] ]) ] ]) ].

Definition verify_request (token : string) : Request :=
  {| method := lit "GET";
     args := [ (lit "hub.mode", lit "subscribe");
               (lit "hub.verify_token", lit token);
               (lit "hub.challenge", lit "999") ];
     is_json := false;
     data := Undecodable |}.

(** A direct send that the platform accepts. *)
Definition accepting_runtime : Runtime :=
  {| repr_container := fun _ => lit "<container>";
     exn_message := fun _ => lit "error";
     chat_invoke := fun _ => Raise IOError;
     storage_get_fails := fun _ => false;
     storage_set_fails := fun _ => false;
     requests_post := fun _ =>
       Ok {| status_code := 200;
             json_body :=
               Some (PDict [ (lit "messages",
                              PList [ PDict [ (lit "id", PStr (lit "wamid.X")) ] ]) ]);
             text := [] |} |}.

(** A host whose platform refuses every send with status 400 and [error]. *)
Definition refusing_runtime (error : pyval) : Runtime :=
  {| repr_container := fun _ => lit "<container>";
     exn_message := fun _ => lit "error";
     chat_invoke := fun _ => Raise IOError;
     storage_get_fails := fun _ => false;
     storage_set_fails := fun _ => false;
     requests_post := fun _ =>
       Ok {| status_code := 400;
             json_body := Some (PDict [ (lit "error", error) ]);
             text := [] |} |}.

Definition send_hello : ToolParameters :=
  {| to := Some (lit "+1 555-0100"); text_param := Some (lit "hello") |}.

Definition valid_credentials : Credentials :=
  {| cred_access_token := Some (lit "EAAG-token");
     cred_phone_number_id := Some (lit "1098765") |}.

(** ** The credential validator: [WhatsAppToolProvider] *)

(** What [_validate_credentials] does: it returns the stripped credentials
    or raises [ValueError] with a message. *)
Inductive Validation :=
| Accepted (credentials : Credentials)
| ValueError (message : list N).

Module WhatsAppToolProvider.

Definition _validate_credentials (credentials : Credentials) : Validation :=
  let access_token := or_empty_strip (cred_access_token credentials) in
  let phone_number_id := or_empty_strip (cred_phone_number_id credentials) in
  if negb (nonempty access_token) then ValueError (lit "Missing access_token")
  else if negb (nonempty phone_number_id)
  then ValueError (lit "Missing phone_number_id")
  else Accepted {| cred_access_token := Some access_token;
                   cred_phone_number_id := Some phone_number_id |}.

End WhatsAppToolProvider.

(** ** Further notions of the statements *)

(** The first and the last character of a string. *)
Definition first_char (s : list N) : option N := List.hd_error s.
Definition last_char (s : list N) : option N := List.hd_error (rev s).

(** No whitespace at either end. *)
Definition trimmed (s : list N) : Prop :=
  (forall c, first_char s = Some c -> is_whitespace c = false)
  /\ (forall c, last_char s = Some c -> is_whitespace c = false).

(** The messages of the missing-credentials exit, lines 18-29. *)
Definition is_credentials_error (m : ToolInvokeMessage) : bool :=
  match m with
  | LogMessage label _ _ => bool_decide (label = lit "credentials")
  | TextMessage t =>
      bool_decide (t = lit "Configuration error: missing WhatsApp credentials")
  | JsonMessage _ => false
  end.

(** The query parameters as [_handle_verify] reads them. *)
Definition verify_mode (r : Request) : list N :=
  or_empty_strip (str_or (lookup_arg (args r) (lit "hub.mode"))
                         (lookup_arg (args r) (lit "mode"))).

Definition verify_supplied_token (r : Request) : list N :=
  or_empty_strip (str_or (lookup_arg (args r) (lit "hub.verify_token"))
                         (lookup_arg (args r) (lit "verify_token"))).

(** A world in which a conversation id is already stored. *)
Definition world_with_token : World :=
  {| storage := <[ lit "whatsapp:1098765:1555" := lit "c-0" ]> ∅;
     trace := [] |}.

(** [w'] is [w] with more calls in its trace, each of them a [Q]. *)
Definition adds (Q : Event -> Prop) (w w' : World) : Prop :=
  exists evs, trace w' = trace w ++ evs /\ Forall Q evs.

(** The calls a webhook request may make, for the stripped credentials, the
    app id and [can_reply] of its settings: a send of a true body to a
    true sender through the configured number, made only when the
    credentials are complete; and, only when an App is configured, a read
    or write of the conversation key of a true sender, or an invocation
    of that App for a true sender and a text that is not [None]. *)
Definition webhook_event (rt : Runtime) (access_token phone_number_id : list N)
    (app_id : option (list N)) (can_reply : bool) (e : Event) : Prop :=
  match e with
  | HttpPost req =>
      can_reply = true
      /\ exists sender body,
           truthy sender = true /\ truthy body = true
           /\ req = whatsapp_request access_token phone_number_id sender body 10
  | StorageGet k | StorageSet k _ =>
      exists c cs sender,
        app_id = Some (c :: cs) /\ truthy sender = true
        /\ k = conversation_key rt phone_number_id sender
  | AppInvoke params =>
      exists c cs sender query conversation_id,
        app_id = Some (c :: cs) /\ truthy sender = true
        /\ is_none query = false
        /\ params = invoke_params (c :: cs) query
                      (identify_inputs phone_number_id sender) conversation_id
  end.

Definition is_post (e : Event) : Prop :=
  match e with HttpPost _ => True | _ => False end.

(** The settings as [_handle_webhook] reads them, lines 144-151. *)
Definition stripped_access_token (settings : Settings) : list N :=
  or_empty_strip (access_token settings).
Definition stripped_phone_number_id (settings : Settings) : list N :=
  or_empty_strip (phone_number_id settings).
Definition can_reply_of (settings : Settings) : bool :=
  nonempty (stripped_access_token settings)
  && nonempty (stripped_phone_number_id settings).

(** ** The messages of a request *)

Definition is_mapping (v : pyval) : bool :=
  match v with PDict _ => true | _ => false end.

(** A message on which the loop body raises: it is no mapping, or it is a
    text whose [text] field is true and is no mapping. *)
Definition malformed (message : pyval) : bool :=
  match message with
  | PDict d =>
      eq_str (field d "type") (lit "text")
      && truthy (field d "text") && negb (is_mapping (field d "text"))
  | _ => true
  end.

(** The three loops of lines 154-158, flattened: in the order in which
    they are reached, each message that is handed to the loop body, and
    the exception raised where a collection cannot be had.  [walk_steps]
    below shows that the walk is the run of these steps. *)
Definition steps_of_change (change : pyval) : list (pyval + exn) :=
  match value ← py_get change (lit "value");
        messages ← py_get (py_or value (PDict [])) (lit "messages");
        py_iter (py_or messages (PList [])) with
  | Ok messages => List.map inl messages
  | Raise e => [inr e]
  end.

Definition steps_of_entry (entry : pyval) : list (pyval + exn) :=
  match py_get_default entry (lit "changes") (PList []) ≫= py_iter with
  | Ok changes => flat_map steps_of_change changes
  | Raise e => [inr e]
  end.

Definition steps (payload : pyval) : list (pyval + exn) :=
  match py_get_default payload (lit "entry") (PList []) ≫= py_iter with
  | Ok entries => flat_map steps_of_entry entries
  | Raise e => [inr e]
  end.

(** One step: the loop body on a message, or the exception. *)
Definition step (rt : Runtime) (access_token phone_number_id : list N)
    (app_id : option (list N)) (can_reply : bool) (s : pyval + exn) : M unit :=
  match s with
  | inl message =>
      process_message rt access_token phone_number_id app_id can_reply message
  | inr e => lift (Raise e)
  end.

Definition messages_of (ss : list (pyval + exn)) : list pyval :=
  flat_map (fun s => match s with inl message => [message] | inr _ => [] end) ss.

(** The steps and the messages of a request: those of its payload,
    line 140. *)
Definition request_steps (r : Request) : list (pyval + exn) :=
  match get_json true r with
  | Ok parsed => steps (py_or parsed (PDict []))
  | Raise _ => []
  end.

Definition request_messages (r : Request) : list pyval :=
  messages_of (request_steps r).

Definition is_send (e : Event) : bool :=
  match e with HttpPost _ => true | _ => false end.

Definition is_invocation (e : Event) : bool :=
  match e with AppInvoke _ => true | _ => false end.

Definition count (p : Event -> bool) (evs : list Event) : nat :=
  length (List.filter p evs).

(** A call made for [message]: the message has a true sender and a text,
    and the call is a send to that sender (of the text itself, or of the
    answer that the configured App gives to an invocation for this text
    and sender), a read or write of that sender's conversation key, or an
    invocation of the configured App with the message's text and the
    sender's identification. *)
Definition message_event (rt : Runtime) (access_token phone_number_id : list N)
    (app_id : option (list N)) (can_reply : bool) (message : pyval) (e : Event)
  : Prop :=
  exists sender text_body,
    py_get message (lit "from") = Ok sender
    /\ _extract_text message = Ok text_body
    /\ truthy sender = true /\ is_none text_body = false
    /\ match e with
       | HttpPost req =>
           can_reply = true
           /\ exists body,
                truthy body = true
                /\ (body = text_body
                    \/ exists c cs conversation_id d,
                         app_id = Some (c :: cs)
                         /\ chat_invoke rt
                              (invoke_params (c :: cs) text_body
                                 (identify_inputs phone_number_id sender)
                                 conversation_id) = Ok (PDict d)
                         /\ body = PStr (py_str rt
                                          (py_or (py_or (field d "answer")
                                                        (field d "output_text"))
                                                 (field d "message"))))
                /\ req = whatsapp_request access_token phone_number_id
                           sender body 10
       | StorageGet key | StorageSet key _ =>
           exists c cs,
             app_id = Some (c :: cs)
             /\ key = conversation_key rt phone_number_id sender
       | AppInvoke params =>
           exists c cs conversation_id,
             app_id = Some (c :: cs)
             /\ params = invoke_params (c :: cs) text_body
                           (identify_inputs phone_number_id sender)
                           conversation_id
       end.

(** The calls made for one message: at most one send, at most one
    invocation, each of them a call for that message. *)
Definition message_calls (rt : Runtime) (access_token phone_number_id : list N)
    (app_id : option (list N)) (can_reply : bool) (message : pyval)
    (evs : list Event) : Prop :=
  (count is_send evs <= 1)%nat
  /\ (count is_invocation evs <= 1)%nat
  /\ Forall (message_event rt access_token phone_number_id app_id can_reply
               message) evs.

(** A call made for one of [messages]. *)
Definition request_event (rt : Runtime) (access_token phone_number_id : list N)
    (app_id : option (list N)) (can_reply : bool) (messages : list pyval)
    (e : Event) : Prop :=
  exists message,
    In message messages
    /\ message_event rt access_token phone_number_id app_id can_reply message e.

Definition image_message (sender : string) : pyval :=
  PDict [ (lit "from", PStr (lit sender));
          (lit "type", PStr (lit "image"));
          (lit "image", PDict [ (lit "id", PStr (lit "media-1")) ]) ].

(** A delivery as the platform sends it: entries of changes, each change
    with its metadata and its messages. *)
Definition change_of (messages : list pyval) : pyval :=
  PDict [ (lit "field", PStr (lit "messages"));
          (lit "value",
           PDict [ (lit "messaging_product", PStr (lit "whatsapp"));
                   (lit "metadata",
                    PDict [ (lit "phone_number_id", PStr (lit "1098765")) ]);
                   (lit "messages", PList messages) ]) ].

Definition entry_of (changes : list pyval) : pyval :=
  PDict [ (lit "id", PStr (lit "102290129340398"));
          (lit "changes", PList changes) ].

Definition delivery (entries : list pyval) : pyval :=
  PDict [ (lit "object", PStr (lit "whatsapp_business_account"));
          (lit "entry", PList entries) ].

(** Two entries; the second message of the first is a bare string. *)
Definition delivery_with_bad_message : pyval :=
  delivery
    [ entry_of [ change_of [ text_message "1555" "hi";
                             PStr (lit "oops");
                             text_message "1556" "hello" ];
                 change_of [ text_message "1557" "hey" ] ];
      entry_of [ change_of [ text_message "1558" "ciao" ] ] ].

(** Two entries that carry images only. *)
Definition delivery_of_images : pyval :=
  delivery
    [ entry_of [ change_of [ image_message "1555" ];
                 change_of [ image_message "1556" ] ];
      entry_of [ change_of [ image_message "1557" ] ] ].

(** ** The configuration as the host hands it over

    [settings], [credentials] and [tool_parameters] are mappings; the
    plugin's manifest declares their values as strings (and the App
    selector), and nothing in the code checks it.  The definitions of this
    section read them untyped, as the code does; the typed readings above
    are their restriction to values of the declared types
    ([untyped_handler_typed], [untyped_tool_typed]). *)

(** [(d.get(k) or '').strip()]: a true value that is no string has no
    [strip]. *)
Definition get_or_empty_strip (d : list (list N * pyval)) (k : list N)
  : result (list N) :=
  match py_or (default PNone (assoc d k)) (PStr []) with
  | PStr s => Ok (strip s)
  | _ => Raise AttributeError
  end.

Module UntypedEndpoint.

Definition _get_app_id (app_setting : pyval) : result (option (list N)) :=
  if negb (truthy app_setting) then Ok None
  else
    match app_setting with
    | PStr s =>
        let app_id := strip s in
        Ok (if nonempty app_id then Some app_id else None)
    | PDict d =>
        match py_or (py_or (field d "app_id") (field d "id")) (PStr []) with
        | PStr s =>
            let app_id := strip s in
            Ok (if nonempty app_id then Some app_id else None)
        | _ => Raise AttributeError
        end
    | _ => Ok None
    end.

Definition _handle_webhook (rt : Runtime) (r : Request)
    (settings : list (list N * pyval)) : M Response :=
  match get_json true r with
  | Raise _ => mret (text_response "Bad Request" 400)
  | Ok parsed =>
      let payload := py_or parsed (PDict []) in
      access_token ← lift (get_or_empty_strip settings (lit "access_token"));
      phone_number_id ← lift (get_or_empty_strip settings (lit "phone_number_id"));
      app_id ← lift (_get_app_id (field settings "app"));
      if negb (truthy payload) then mret _ok
      else
        has_entry ← lift (str_in (lit "entry") payload);
        if negb has_entry then mret _ok
        else
          let can_reply := nonempty access_token && nonempty phone_number_id in
          try_except
            (walk rt access_token phone_number_id app_id can_reply payload ;;
             mret _ok)
            (fun _ => mret _ok)
  end.

End UntypedEndpoint.

Module UntypedTool.

(** Lines 12-16 read the four inputs, outside every [try]; lines 18-103
    are those of the typed reading. *)
Definition _invoke (rt : Runtime)
    (credentials tool_parameters : list (list N * pyval))
  : M (list ToolInvokeMessage) :=
  access_token ← lift (get_or_empty_strip credentials (lit "access_token"));
  phone_number_id ← lift (get_or_empty_strip credentials (lit "phone_number_id"));
  to_raw ← lift (get_or_empty_strip tool_parameters (lit "to"));
  text ← lift (get_or_empty_strip tool_parameters (lit "text"));
  if negb (nonempty access_token) || negb (nonempty phone_number_id) then
    mret [ LogMessage (lit "credentials")
             (PDict [ (lit "error", PStr (lit "Missing credentials"));
                      (lit "have_access_token", PBool (nonempty access_token));
                      (lit "have_phone_number_id", PBool (nonempty phone_number_id)) ])
             (Some ERROR);
           TextMessage (lit "Configuration error: missing WhatsApp credentials") ]
  else if negb (nonempty to_raw) || negb (nonempty text) then
    mret [ LogMessage (lit "parameters")
             (PDict [ (lit "error", PStr (lit "Missing required parameters"));
                      (lit "to", PBool (nonempty to_raw));
                      (lit "text", PBool (nonempty text)) ])
             (Some ERROR);
           TextMessage (lit "Missing required parameters: to, text") ]
  else
    let to := normalize to_raw in
    let request :=
      whatsapp_request access_token phone_number_id (PStr to) (PStr text) 20 in
    let request_log :=
      LogMessage (lit "send_request")
        (PDict [ (lit "url", PStr (url request)); (lit "to", PStr to) ]) None in
    try_except
      (resp ← http_post rt request;
       mret (request_log :: after_response rt to resp))
      (fun e => mret (request_log :: exception_messages rt e)).

End UntypedTool.

(** A value that [(v or '').strip()] accepts: a string, or any false
    value. *)
Definition strippable (v : pyval) : bool :=
  match py_or v (PStr []) with PStr _ => true | _ => false end.

(** The string that a value of the configuration holds, if it is one. *)
Definition as_string (v : pyval) : option (list N) :=
  match v with PStr s => Some s | _ => None end.

(** An App selector that [_get_app_id] can read. *)
Definition selector_readable (app_setting : pyval) : bool :=
  match app_setting with
  | PDict d => strippable (py_or (field d "app_id") (field d "id"))
  | _ => true
  end.

Definition typed_app (app_setting : pyval) : AppSetting :=
  if negb (truthy app_setting) then AppUnset
  else
    match app_setting with
    | PStr s => AppString s
    | PDict d =>
        AppMapping (as_string (field d "app_id")) (as_string (field d "id"))
    | _ => AppOther
    end.

(** Settings that lines 144-146 can read, and their typed reading. *)
Definition settings_readable (settings : list (list N * pyval)) : bool :=
  strippable (field settings "access_token")
  && strippable (field settings "phone_number_id")
  && selector_readable (field settings "app").

Definition typed_settings (settings : list (list N * pyval)) : Settings :=
  {| access_token := as_string (field settings "access_token");
     phone_number_id := as_string (field settings "phone_number_id");
     app := typed_app (field settings "app");
     verify_token := as_string (field settings "verify_token") |}.

(** Inputs that lines 12-16 of the tool can read, and their typed
    reading. *)
Definition inputs_readable (credentials tool_parameters : list (list N * pyval))
  : bool :=
  strippable (field credentials "access_token")
  && strippable (field credentials "phone_number_id")
  && strippable (field tool_parameters "to")
  && strippable (field tool_parameters "text").

Definition typed_credentials (credentials : list (list N * pyval)) : Credentials :=
  {| cred_access_token := as_string (field credentials "access_token");
     cred_phone_number_id := as_string (field credentials "phone_number_id") |}.

Definition typed_parameters (tool_parameters : list (list N * pyval))
  : ToolParameters :=
  {| to := as_string (field tool_parameters "to");
     text_param := as_string (field tool_parameters "text") |}.

(** ** Notions of the direct send *)

(** The four inputs as the tool reads them, lines 12-16, and whether the
    two checks of lines 18 and 31 let them pass. *)
Definition inputs_present (credentials : Credentials)
    (tool_parameters : ToolParameters) : bool :=
  nonempty (or_empty_strip (cred_access_token credentials))
  && nonempty (or_empty_strip (cred_phone_number_id credentials))
  && nonempty (or_empty_strip (to tool_parameters))
  && nonempty (or_empty_strip (text_param tool_parameters)).

(** Line 41. *)
Definition recipient (tool_parameters : ToolParameters) : list N :=
  normalize (or_empty_strip (to tool_parameters)).

(** The request of line 58. *)
Definition direct_request (credentials : Credentials)
    (tool_parameters : ToolParameters) : HttpRequest :=
  whatsapp_request (or_empty_strip (cred_access_token credentials))
    (or_empty_strip (cred_phone_number_id credentials))
    (PStr (recipient tool_parameters))
    (PStr (or_empty_strip (text_param tool_parameters))) 20.

(** The log message of line 55. *)
Definition request_log (credentials : Credentials)
    (tool_parameters : ToolParameters) : ToolInvokeMessage :=
  LogMessage (lit "send_request")
    (PDict [ (lit "url", PStr (url (direct_request credentials tool_parameters)));
             (lit "to", PStr (recipient tool_parameters)) ]) None.

(** Line 60. *)
Definition accepted (resp : HttpResponse) : bool :=
  (200 <=? status_code resp)%Z && (status_code resp <? 300)%Z.

(** The log message of lines 67-71. *)
Definition response_log (resp : HttpResponse) : ToolInvokeMessage :=
  LogMessage (lit "send_response")
    (PDict [ (lit "status_code", PInt (status_code resp));
             (lit "body", safe_json resp) ])
    (Some (if accepted resp then SUCCESS else ERROR)).

(** A body in which [extract_api_error] finds no error: anything but an
    object that has the key. *)
Definition lacks_error (body : pyval) : bool :=
  match body with
  | PDict d => negb (has_key d (lit "error"))
  | _ => true
  end.

(** A message that a workflow receives as output, as opposed to a log. *)
Definition is_output (m : ToolInvokeMessage) : bool :=
  match m with LogMessage _ _ _ => false | _ => true end.

Definition final_message (messages : list ToolInvokeMessage)
  : option ToolInvokeMessage :=
  List.hd_error (rev messages).

(** A host whose platform answers every send with a 502 page that is not
    JSON. *)
Definition gateway_error_runtime : Runtime :=
  {| repr_container := fun _ => lit "<container>";
     exn_message := fun _ => lit "error";
     chat_invoke := fun _ => Raise IOError;
     storage_get_fails := fun _ => false;
     storage_set_fails := fun _ => false;
     requests_post := fun _ =>
       Ok {| status_code := 502;
             json_body := None;
             text := lit "<html>Bad Gateway</html>" |} |}.

Definition padded_credentials : Credentials :=
  {| cred_access_token := Some (lit "  EAAG-token ");
     cred_phone_number_id := Some (lit " 1098765") |}.

(** * Properties *)

(** ** Values *)

Lemma py_or_true a b : truthy a = true -> py_or a b = a.
Proof. unfold py_or. intros ->. reflexivity. Qed.

Lemma py_or_false a b : truthy a = false -> py_or a b = b.
Proof. unfold py_or. intros ->. reflexivity. Qed.

Lemma truthy_not_none v : truthy v = true -> is_none v = false.
Proof. destruct v; [discriminate | reflexivity ..]. Qed.

(** ** Recipient normalization *)

Lemma normalize_digits x : Forall (fun c => is_digit c = true) (normalize x).
Proof.
  unfold normalize. induction x as [|c x IH]; simpl; [constructor|].
  destruct (is_digit c) eqn:E; auto.
Qed.

Lemma normalize_fixed x :
  Forall (fun c => is_digit c = true) x -> normalize x = x.
Proof.
  unfold normalize. induction 1 as [|c x Hc _ IH]; simpl; [reflexivity|].
  rewrite Hc, IH. reflexivity.
Qed.

Lemma normalize_app x y : normalize (x ++ y) = normalize x ++ normalize y.
Proof. unfold normalize. apply List.filter_app. Qed.

(** C7: normalization is idempotent, its result holds only the characters
    0-9, it keeps exactly the digits of its input (a character is in the
    result iff it is in the input and is a digit, and an input of digits
    is unchanged), and it maps "+1 (555) 123-4567" to "15551234567". *)
Theorem normalize_idempotent_digits_only :
  (forall x, normalize (normalize x) = normalize x)
  /\ (forall x c, In c (normalize x) -> 0x30 <= c <= 0x39)
  /\ (forall x c, In c (normalize x) <-> In c x /\ is_digit c = true)
  /\ (forall x y, normalize (x ++ y) = normalize x ++ normalize y)
  /\ (forall x, Forall (fun c => is_digit c = true) x -> normalize x = x)
  /\ normalize (lit "+1 (555) 123-4567") = lit "15551234567".
Proof.
  split; [|split; [|split; [|split; [|split]]]].
  - intros x. apply normalize_fixed, normalize_digits.
  - intros x c H. apply List.filter_In in H. destruct H as [_ H].
    unfold is_digit in H. apply andb_prop in H.
    rewrite !N.leb_le in H. exact H.
  - intros x c. unfold normalize. rewrite List.filter_In. tauto.
  - apply normalize_app.
  - apply normalize_fixed.
  - reflexivity.
Qed.

(** ** UTF-8: decoding undoes encoding *)

Lemma utf8_decode_encode_char c b rest :
  utf8_encode_char c = Some b ->
  utf8_decode (b ++ rest) = cons c <$> utf8_decode rest.
Proof.
  unfold utf8_encode_char.
  destruct (N.ltb_spec c 0x80) as [H1|H1].
  { intros [= <-]. simpl. destruct (N.ltb_spec c 0x80); [reflexivity | lia]. }
  destruct (N.ltb_spec c 0x800) as [H2|H2].
  { intros [= <-].
    pose proof (N.div_mod c 64 ltac:(lia)) as E.
    pose proof (N.mod_lt c 64 ltac:(lia)) as L.
    set (q := c / 64) in *. set (r := c mod 64) in *.
    cbn [List.app utf8_decode].
    destruct (N.ltb_spec (0xC0 + q) 0x80); [lia|].
    destruct (N.ltb_spec (0xC0 + q) 0xC2); [lia|].
    destruct (N.ltb_spec (0xC0 + q) 0xE0); [|lia].
    unfold is_continuation.
    destruct (N.leb_spec 0x80 (0x80 + r)); [|lia].
    destruct (N.ltb_spec (0x80 + r) 0xC0); [|lia].
    cbn [andb]. replace ((0xC0 + q - 0xC0) * 64 + (0x80 + r - 0x80)) with c by lia.
    reflexivity. }
  destruct (N.ltb_spec c 0x10000) as [H3|H3].
  { destruct (N.leb_spec 0xD800 c) as [H4|H4];
      [destruct (N.leb_spec c 0xDFFF) as [H5|H5]|]; cbn [andb]; try discriminate;
      intros [= <-].
    all: pose proof (N.div_mod c 64 ltac:(lia)) as E;
      pose proof (N.mod_lt c 64 ltac:(lia)) as L;
      pose proof (N.div_mod (c / 64) 64 ltac:(lia)) as E';
      pose proof (N.mod_lt (c / 64) 64 ltac:(lia)) as L';
      replace (c / 4096) with (c / 64 / 64) by (rewrite N.Div0.div_div; reflexivity);
      set (r := c mod 64) in *; set (r' := (c / 64) mod 64) in *;
      set (q := c / 64) in *; set (q' := q / 64) in *;
      cbn [List.app utf8_decode];
      destruct (N.ltb_spec (0xE0 + q') 0x80); [lia|];
      destruct (N.ltb_spec (0xE0 + q') 0xC2); [lia|];
      destruct (N.ltb_spec (0xE0 + q') 0xE0); [lia|];
      destruct (N.ltb_spec (0xE0 + q') 0xF0); [|lia];
      unfold is_continuation;
      destruct (N.leb_spec 0x80 (0x80 + r')); [|lia];
      destruct (N.ltb_spec (0x80 + r') 0xC0); [|lia];
      destruct (N.leb_spec 0x80 (0x80 + r)); [|lia];
      destruct (N.ltb_spec (0x80 + r) 0xC0); [|lia];
      replace ((0xE0 + q' - 0xE0) * 4096 + (0x80 + r' - 0x80) * 64 + (0x80 + r - 0x80))
        with c by lia;
      destruct (N.leb_spec 0x800 c); [|lia];
      destruct (N.leb_spec 0xD800 c); try lia;
      destruct (N.leb_spec c 0xDFFF); try lia; reflexivity. }
  destruct (N.ltb_spec c 0x110000) as [H4|H4]; [|discriminate].
  intros [= <-].
  pose proof (N.div_mod c 64 ltac:(lia)) as E.
  pose proof (N.mod_lt c 64 ltac:(lia)) as L.
  pose proof (N.div_mod (c / 64) 64 ltac:(lia)) as E'.
  pose proof (N.mod_lt (c / 64) 64 ltac:(lia)) as L'.
  pose proof (N.div_mod (c / 64 / 64) 64 ltac:(lia)) as E''.
  pose proof (N.mod_lt (c / 64 / 64) 64 ltac:(lia)) as L''.
  replace (c / 262144) with (c / 64 / 64 / 64) by (rewrite !N.Div0.div_div; reflexivity).
  replace (c / 4096) with (c / 64 / 64) by (rewrite N.Div0.div_div; reflexivity).
  set (r := c mod 64) in *. set (r' := (c / 64) mod 64) in *.
  set (r'' := (c / 64 / 64) mod 64) in *.
  set (q := c / 64) in *. set (q' := q / 64) in *. set (q'' := q' / 64) in *.
  cbn [List.app utf8_decode].
  destruct (N.ltb_spec (0xF0 + q'') 0x80); [lia|].
  destruct (N.ltb_spec (0xF0 + q'') 0xC2); [lia|].
  destruct (N.ltb_spec (0xF0 + q'') 0xE0); [lia|].
  destruct (N.ltb_spec (0xF0 + q'') 0xF0); [lia|].
  destruct (N.ltb_spec (0xF0 + q'') 0xF5); [|lia].
  unfold is_continuation.
  destruct (N.leb_spec 0x80 (0x80 + r'')); [|lia].
  destruct (N.ltb_spec (0x80 + r'') 0xC0); [|lia].
  destruct (N.leb_spec 0x80 (0x80 + r')); [|lia].
  destruct (N.ltb_spec (0x80 + r') 0xC0); [|lia].
  destruct (N.leb_spec 0x80 (0x80 + r)); [|lia].
  destruct (N.ltb_spec (0x80 + r) 0xC0); [|lia].
  replace ((0xF0 + q'' - 0xF0) * 262144 + (0x80 + r'' - 0x80) * 4096
           + (0x80 + r' - 0x80) * 64 + (0x80 + r - 0x80)) with c by lia.
  destruct (N.leb_spec 0x10000 c); [|lia].
  destruct (N.ltb_spec c 0x110000); [|lia].
  reflexivity.
Qed.

(** Decoding undoes encoding. *)
Lemma utf8_decode_encode s b :
  utf8_encode s = Some b -> utf8_decode b = Some s.
Proof.
  revert b. induction s as [|c s IH]; intros b; simpl.
  - intros [= <-]. reflexivity.
  - destruct (utf8_encode_char c) as [bc|] eqn:Ec; [|discriminate].
    destruct (utf8_encode s) as [bs|]; [|discriminate].
    intros [= <-]. rewrite (utf8_decode_encode_char _ _ _ Ec), (IH bs eq_refl).
    reflexivity.
Qed.

Lemma utf8_encode_char_nonempty c b : utf8_encode_char c = Some b -> b <> [].
Proof.
  unfold utf8_encode_char.
  repeat match goal with |- context [if ?x then _ else _] => destruct x end;
    intros [= <-]; discriminate.
Qed.

Lemma utf8_encode_nonempty s b : utf8_encode s = Some b -> s <> [] -> b <> [].
Proof.
  destruct s as [|c s]; [congruence|]. simpl.
  destruct (utf8_encode_char c) as [bc|] eqn:Ec; [|discriminate].
  destruct (utf8_encode s); [|discriminate].
  intros [= <-] _ E. apply app_eq_nil in E as [E _].
  exact (utf8_encode_char_nonempty _ _ Ec E).
Qed.

(** ** The webhook's first checks *)



(** With [silent=False] the same body would have raised. *)
Lemma get_json_loud_undecodable r :
  data r = Undecodable -> get_json false r = Raise BadRequest.
Proof. intros E. unfold get_json. rewrite E. destruct (is_json r); reflexivity. Qed.

(** The 400 answer is reached only when reading the body raises. *)
Lemma handle_webhook_bad_request rt r settings w resp w' :
  _handle_webhook rt r settings w = (Ok resp, w') ->
  status resp = 400%Z ->
  is_json r = true /\ data r = ReadError /\ w' = w.
Proof.
  unfold _handle_webhook.
  destruct (get_json true r) as [parsed|e] eqn:E.
  - intros H Hs. exfalso. revert H.
    destruct (truthy (py_or parsed (PDict []))); cbn [negb].
    2:{ intros [= <- _]. discriminate. }
    unfold mbind, M_bind, lift.
    destruct (str_in (lit "entry") (py_or parsed (PDict []))) as [[|]|];
      cbn [negb]; try discriminate.
    2:{ intros [= <- _]. discriminate. }
    unfold try_except.
    match goal with
    | |- context [walk ?a ?b ?c ?d ?e ?f ?g] =>
        destruct (walk a b c d e f g) as [[[]|] w0]
    end; cbn; intros [= <- _]; discriminate.
  - intros [= _ <-] _. revert E. unfold get_json.
    destruct (is_json r), (data r); cbn; try discriminate. auto.
Qed.




(** ** Payloads without [entry] *)

Lemma walk_not_mapping rt access_token phone_number_id app_id can_reply payload w :
  (forall d, payload <> PDict d) ->
  walk rt access_token phone_number_id app_id can_reply payload w
  = (Raise AttributeError, w).
Proof.
  intros H. unfold walk, mbind at 1, M_bind, lift.
  destruct payload; try reflexivity. destruct (H d eq_refl).
Qed.

(** Every payload without an [entry] collection, a true scalar apart, is
    answered 200 "ok" and leaves the world as it was: an object without
    the key, an array or a string (even one that holds "entry": the walk
    then fails at once and is swallowed), null, false and 0. *)
Lemma handle_webhook_lacks_entry rt r settings w parsed :
  get_json true r = Ok parsed ->
  lacks_entry parsed = true ->
  true_scalar parsed = false ->
  _handle_webhook rt r settings w = (Ok _ok, w).
Proof.
  intros E H Hs. unfold _handle_webhook. rewrite E.
  destruct (truthy (py_or parsed (PDict []))) eqn:Ht; [|reflexivity].
  cbn [negb].
  assert (Hp : py_or parsed (PDict []) = parsed).
  { unfold py_or in *. destruct (truthy parsed); [reflexivity | discriminate]. }
  rewrite Hp. unfold mbind at 1, M_bind, lift.
  destruct parsed as [|b|n|t|l|d]; cbn [str_in].
  - rewrite Hp in Ht. discriminate.
  - cbn in Hs. subst b. rewrite Hp in Ht. discriminate.
  - cbn in Hs. rewrite Hp in Ht. cbn in Ht. rewrite Hs in Ht. discriminate.
  - destruct (contains (lit "entry") t); [|reflexivity]. cbn [negb].
    unfold try_except, mbind, M_bind.
    rewrite walk_not_mapping by discriminate. reflexivity.
  - destruct (existsb _ l); [|reflexivity]. cbn [negb].
    unfold try_except, mbind, M_bind.
    rewrite walk_not_mapping by discriminate. reflexivity.
  - unfold lacks_entry in H. apply negb_true_iff in H. rewrite H. reflexivity.
Qed.

(** A true scalar makes the membership test of line 148 raise, outside
    every [try]. *)
Lemma handle_webhook_true_scalar rt r settings w parsed :
  get_json true r = Ok parsed ->
  true_scalar parsed = true ->
  _handle_webhook rt r settings w = (Raise TypeError, w).
Proof.
  intros E H. unfold _handle_webhook. rewrite E.
  destruct parsed as [|b|n| | |]; try discriminate; cbn in H.
  - subst b. reflexivity.
  - unfold py_or, truthy. rewrite H.
    apply negb_true_iff in H. rewrite H. reflexivity.
Qed.

(** C5 (the failing input): a body that is the JSON number 5 has no
    [entry], yet the membership test of line 148, which no [try] guards,
    raises; the endpoint gives no response at all.  Nothing is stored,
    invoked or sent. *)
Theorem number_payload_raises rt settings w :
  WhatsappBotEndpoint._invoke rt (post_request (Decodes (PInt 5))) settings w
  = (Raise TypeError, w).
Proof. reflexivity. Qed.

(** ** The App Bridge *)

Lemma read_conversation_id_eq rt key w :
  read_conversation_id rt key w
  = (Ok (stored_conversation_id rt key w), log (StorageGet key) w).
Proof.
  unfold read_conversation_id, stored_conversation_id, try_except, mbind,
    M_bind, storage_get.
  destruct (storage_get_fails rt key); [reflexivity|].
  destruct (storage w !! key) as [[|b bs]|]; try reflexivity.
  destruct (utf8_decode (b :: bs)); reflexivity.
Qed.

(** The bridge, once the App has answered with a mapping. *)
Lemma invoke_app_reply_answered rt app_id query inputs key w d :
  chat_invoke rt (bridge_request rt app_id query inputs key w) = Ok (PDict d) ->
  _invoke_app_reply rt app_id query inputs key w
  = (Ok (let answer := py_or (py_or (field d "answer") (field d "output_text"))
                             (field d "message") in
         if is_none answer then None else Some (py_str rt answer)),
     persist rt key (field d "conversation_id")
       (log (AppInvoke (bridge_request rt app_id query inputs key w))
          (log (StorageGet key) w))).
Proof.
  intros E. unfold _invoke_app_reply, try_except at 1, mbind at 1, M_bind at 1.
  rewrite read_conversation_id_eq.
  unfold mbind at 1, M_bind at 1, app_chat_invoke.
  unfold bridge_request in E. rewrite E.
  unfold mbind, M_bind, lift, py_get, persist, field.
  set (w2 := log _ (log _ w)).
  destruct (truthy (default PNone (assoc d (lit "conversation_id")))); [|reflexivity].
  unfold try_except.
  destruct (utf8_encode _) as [b|]; [|reflexivity].
  unfold storage_set. destruct (storage_set_fails rt key); reflexivity.
Qed.

(** The bridge never raises. *)
Lemma invoke_app_reply_total rt app_id query inputs key w :
  exists reply w', _invoke_app_reply rt app_id query inputs key w = (Ok reply, w').
Proof.
  unfold _invoke_app_reply, try_except at 1.
  match goal with |- context [match ?m w with _ => _ end] => destruct (m w) as [[a|e] w'] end;
    eauto.
Qed.

(** C3 (counterexample): the App answers with an empty [answer] and the
    [output_text] "hi"; [answer] is the first field present, yet the reply
    is "hi". *)
Lemma empty_answer_does_not_win :
  first_present empty_then_text = PStr []
  /\ (_invoke_app_reply (answering_runtime (PDict empty_then_text))
        (lit "app-1") (PStr (lit "hello")) [] (lit "whatsapp:1098765:1555")
        empty_world).1
     = Ok (Some (lit "hi"))
  /\ Some (lit "hi")
     <> Some (py_str (answering_runtime (PDict empty_then_text))
                (first_present empty_then_text)).
Proof. split; [reflexivity|]. split; [reflexivity|]. discriminate. Qed.

(** C3 (amended): of [answer], [output_text] and [message], in that order,
    the first field whose value is true (not absent, null, empty or zero)
    gives the reply; when none is, the reply is the value of [message],
    and there is no reply when [message] is absent. *)
Theorem reply_is_first_true_field rt app_id query inputs key w d :
  chat_invoke rt (bridge_request rt app_id query inputs key w) = Ok (PDict d) ->
  let reply := (_invoke_app_reply rt app_id query inputs key w).1 in
  (truthy (field d "answer") = true ->
     reply = Ok (Some (py_str rt (field d "answer"))))
  /\ (truthy (field d "answer") = false ->
      truthy (field d "output_text") = true ->
        reply = Ok (Some (py_str rt (field d "output_text"))))
  /\ (truthy (field d "answer") = false ->
      truthy (field d "output_text") = false ->
        reply = Ok (if is_none (field d "message") then None
                    else Some (py_str rt (field d "message")))).
Proof.
  intros E reply. subst reply.
  rewrite (invoke_app_reply_answered _ _ _ _ _ _ _ E). cbn [fst].
  cbv zeta. split; [|split].
  - intros Ha. rewrite (py_or_true _ _ Ha), (py_or_true _ _ Ha).
    rewrite (truthy_not_none _ Ha). reflexivity.
  - intros Ha Hb. rewrite (py_or_false _ _ Ha), (py_or_true _ _ Hb).
    rewrite (truthy_not_none _ Hb). reflexivity.
  - intros Ha Hb. rewrite (py_or_false _ _ Ha), (py_or_false _ _ Hb).
    reflexivity.
Qed.

Lemma reply_is_first_true_field_witness :
  (_invoke_app_reply (answering_runtime (PDict empty_then_text))
     (lit "app-1") (PStr (lit "hello")) [] (lit "whatsapp:1098765:1555")
     empty_world).1
  = Ok (Some (lit "hi")).
Proof.
  apply (reply_is_first_true_field (answering_runtime (PDict empty_then_text))
           (lit "app-1") (PStr (lit "hello")) [] (lit "whatsapp:1098765:1555")
           empty_world empty_then_text eq_refl);
    reflexivity.
Defined.

(** *** What the bridge adds to the trace *)

Lemma invoke_app_reply_unanswered rt app_id query inputs key w :
  (forall d, chat_invoke rt (bridge_request rt app_id query inputs key w)
             <> Ok (PDict d)) ->
  _invoke_app_reply rt app_id query inputs key w
  = (Ok None,
     log (AppInvoke (bridge_request rt app_id query inputs key w))
       (log (StorageGet key) w)).
Proof.
  intros H. unfold _invoke_app_reply, try_except at 1, mbind at 1, M_bind at 1.
  rewrite read_conversation_id_eq.
  unfold mbind at 1, M_bind at 1, app_chat_invoke.
  fold (bridge_request rt app_id query inputs key w).
  destruct (chat_invoke rt (bridge_request rt app_id query inputs key w))
    as [[| | | | |d]|e]; try reflexivity.
  destruct (H d eq_refl).
Qed.

Lemma persist_trace rt key new w :
  trace (persist rt key new w) = trace w
  \/ exists b, trace (persist rt key new w) = trace w ++ [StorageSet key b].
Proof.
  unfold persist. destruct (truthy new); [|auto].
  destruct (utf8_encode (py_str rt new)) as [b|]; [|auto].
  right. exists b. unfold storage_set.
  destruct (storage_set_fails rt key); reflexivity.
Qed.

(** The bridge reads the key, invokes the App once, and writes the key at
    most once; it posts nothing. *)
Lemma invoke_app_reply_trace rt app_id query inputs key w :
  exists reply w',
    _invoke_app_reply rt app_id query inputs key w = (Ok reply, w')
    /\ (trace w' = trace w ++ [ StorageGet key;
                   AppInvoke (bridge_request rt app_id query inputs key w) ]
        \/ exists b,
           trace w' = trace w ++ [ StorageGet key;
                       AppInvoke (bridge_request rt app_id query inputs key w);
                       StorageSet key b ]).
Proof.
  destruct (chat_invoke rt (bridge_request rt app_id query inputs key w))
    as [v|e] eqn:E.
  2:{ do 2 eexists. split.
      - apply invoke_app_reply_unanswered. intros d. rewrite E. discriminate.
      - left. cbn. rewrite <- app_assoc. reflexivity. }
  destruct v as [| | | | |d].
  6:{ do 2 eexists. split; [apply (invoke_app_reply_answered _ _ _ _ _ _ _ E)|].
      destruct (persist_trace rt key (field d "conversation_id")
                  (log (AppInvoke (bridge_request rt app_id query inputs key w))
                     (log (StorageGet key) w))) as [->|[b ->]].
      - left. cbn. rewrite <- app_assoc. reflexivity.
      - right. exists b. cbn. rewrite <- !app_assoc. reflexivity. }
  all: do 2 eexists; split;
    [apply invoke_app_reply_unanswered; intros d; rewrite E; discriminate
    |left; cbn; rewrite <- app_assoc; reflexivity].
Qed.

(** *** Continuity *)

(** C2 (counterexample): the App's response carries the identifier "c-1",
    the storage refuses the write (which the bridge swallows); nothing is
    persisted and the second invocation sends no [conversation_id]. *)
Lemma continuity_lost_when_write_fails :
  let rt := rejecting_runtime (PDict answer_with_id) in
  let key := lit "whatsapp:1098765:1555" in
  let w1 := (_invoke_app_reply rt (lit "app-1") (PStr (lit "hello")) [] key
               empty_world).2 in
  let w2 := (_invoke_app_reply rt (lit "app-1") (PStr (lit "again")) [] key
               w1).2 in
  field answer_with_id "conversation_id" = PStr (lit "c-1")
  /\ storage w1 !! key = None
  /\ Forall carries_no_conversation_id (trace w2).
Proof.
  cbv zeta. split; [reflexivity|]. split; [reflexivity|].
  vm_compute. repeat constructor.
Qed.

(** C2 (amended): when the App's response carries a conversation id that
    is true, whose string form is not empty and encodes as UTF-8, and the
    storage neither refuses the write nor the next read of the key, then
    the string form is stored under the key, and the next invocation of
    the bridge for that key sends it as [conversation_id]. *)
Theorem continuity_round_trip rt app_id query inputs key w d b
    app_id' query' inputs' :
  chat_invoke rt (bridge_request rt app_id query inputs key w) = Ok (PDict d) ->
  truthy (field d "conversation_id") = true ->
  utf8_encode (py_str rt (field d "conversation_id")) = Some b ->
  py_str rt (field d "conversation_id") <> [] ->
  storage_set_fails rt key = false ->
  storage_get_fails rt key = false ->
  let id := py_str rt (field d "conversation_id") in
  let w1 := (_invoke_app_reply rt app_id query inputs key w).2 in
  storage w1 !! key = Some b
  /\ assoc (bridge_request rt app_id' query' inputs' key w1)
       (lit "conversation_id") = Some (PStr id)
  /\ exists reply w2 rest,
       _invoke_app_reply rt app_id' query' inputs' key w1 = (Ok reply, w2)
       /\ trace w2
          = trace w1
            ++ StorageGet key
               :: AppInvoke (invoke_params app_id' query' inputs' (Some id))
               :: rest.
Proof.
  intros E Ht Hb Hne Hset Hget id w1.
  assert (Hs : storage w1 !! key = Some b).
  { subst w1. rewrite (invoke_app_reply_answered _ _ _ _ _ _ _ E). cbn [snd].
    unfold persist. rewrite Ht, Hb. unfold storage_set. rewrite Hset.
    cbn [snd storage]. apply lookup_insert_eq. }
  assert (Hid : stored_conversation_id rt key w1 = Some id).
  { unfold stored_conversation_id. rewrite Hget, Hs.
    pose proof (utf8_encode_nonempty _ _ Hb Hne) as Hbne.
    destruct b as [|b0 b']; [congruence|].
    apply utf8_decode_encode, Hb. }
  assert (Hreq : bridge_request rt app_id' query' inputs' key w1
                 = invoke_params app_id' query' inputs' (Some id)).
  { unfold bridge_request. rewrite Hid. reflexivity. }
  split; [exact Hs|]. split.
  - rewrite Hreq. unfold invoke_params. subst id.
    destruct (py_str rt (field d "conversation_id")) as [|c cs];
      [congruence | reflexivity].
  - destruct (invoke_app_reply_trace rt app_id' query' inputs' key w1)
      as (reply & w2 & Erun & [Htr|[b' Htr]]); rewrite Hreq in Htr.
    + exists reply, w2, []. auto.
    + exists reply, w2, [StorageSet key b']. auto.
Qed.

Lemma continuity_round_trip_witness :
  let rt := answering_runtime (PDict answer_with_id) in
  let key := lit "whatsapp:1098765:1555" in
  let w1 := (_invoke_app_reply rt (lit "app-1") (PStr (lit "hello")) [] key
               empty_world).2 in
  storage w1 !! key = Some (lit "c-1")
  /\ assoc (bridge_request rt (lit "app-1") (PStr (lit "again")) [] key w1)
       (lit "conversation_id") = Some (PStr (lit "c-1")).
Proof.
  cbv zeta.
  pose proof (continuity_round_trip (answering_runtime (PDict answer_with_id))
                (lit "app-1") (PStr (lit "hello")) []
                (lit "whatsapp:1098765:1555") empty_world answer_with_id
                (lit "c-1") (lit "app-1") (PStr (lit "again")) []
                eq_refl eq_refl eq_refl ltac:(discriminate) eq_refl eq_refl)
    as (H1 & H2 & _).
  split; [exact H1 | exact H2].
Defined.

(** ** One message of the webhook *)

Lemma send_whatsapp_text_eq rt access_token phone_number_id to_wa_id body_text w :
  _send_whatsapp_text rt access_token phone_number_id to_wa_id body_text w
  = (Ok tt,
     log (HttpPost (whatsapp_request access_token phone_number_id to_wa_id
                      body_text 10)) w).
Proof.
  unfold _send_whatsapp_text, try_except, mbind, M_bind, http_post.
  destruct (requests_post rt _); reflexivity.
Qed.

(** The world after a message with a sender and a text has been handled:
    the bridge's effects, then at most one send. *)
Lemma process_message_text rt access_token phone_number_id app_id can_reply
    message sender text_body w reply w1 :
  py_get message (lit "from") = Ok sender ->
  _extract_text message = Ok text_body ->
  truthy sender = true ->
  is_none text_body = false ->
  app_reply rt phone_number_id app_id sender text_body w = (Ok reply, w1) ->
  process_message rt access_token phone_number_id app_id can_reply message w
  = (Ok tt,
     if can_reply && truthy (choose_reply reply text_body)
     then log (HttpPost (whatsapp_request access_token phone_number_id sender
                           (choose_reply reply text_body) 10)) w1
     else w1).
Proof.
  intros Hf Ht Hs Hn Hr. unfold process_message, mbind, M_bind, lift.
  rewrite Hf, Ht, Hs, Hn. cbn [negb orb]. rewrite Hr.
  destruct (can_reply && truthy (choose_reply reply text_body)); [|reflexivity].
  apply send_whatsapp_text_eq.
Qed.

Lemma app_reply_trace rt phone_number_id app_id sender text_body w :
  exists reply w' evs,
    app_reply rt phone_number_id app_id sender text_body w = (Ok reply, w')
    /\ trace w' = trace w ++ evs
    /\ forall req, ~ In (HttpPost req) evs.
Proof.
  unfold app_reply. destruct app_id as [[|c cs]|].
  1,3: exists None, w, []; rewrite app_nil_r; repeat split; auto.
  destruct (invoke_app_reply_trace rt (c :: cs) text_body
              (identify_inputs phone_number_id sender)
              (conversation_key rt phone_number_id sender) w)
    as (reply & w' & E & [Htr|[b Htr]]);
    do 3 eexists; (split; [exact E|]); (split; [exact Htr|]);
    intros req Hin; cbn in Hin; intuition discriminate.
Qed.

(** C4: when the bridge gives no candidate reply (no App is configured,
    the invocation failed, or the answer is absent or empty), the reply
    text is the inbound text itself, and the send, which happens when the
    credentials are set and the text is not empty, carries exactly it. *)
Theorem echo_fallback rt access_token phone_number_id app_id can_reply
    message sender text_body w reply w1 :
  py_get message (lit "from") = Ok sender ->
  _extract_text message = Ok text_body ->
  truthy sender = true ->
  is_none text_body = false ->
  app_reply rt phone_number_id app_id sender text_body w = (Ok reply, w1) ->
  reply = None \/ reply = Some [] ->
  choose_reply reply text_body = text_body
  /\ process_message rt access_token phone_number_id app_id can_reply message w
     = (Ok tt,
        if can_reply && truthy text_body
        then log (HttpPost (whatsapp_request access_token phone_number_id
                              sender text_body 10)) w1
        else w1).
Proof.
  intros Hf Ht Hs Hn Hr Habsent.
  assert (Hc : choose_reply reply text_body = text_body)
    by (destruct Habsent; subst reply; reflexivity).
  split; [exact Hc|].
  rewrite (process_message_text _ _ _ _ _ _ _ _ _ _ _ Hf Ht Hs Hn Hr), Hc.
  reflexivity.
Qed.

Lemma echo_fallback_witness :
  process_message offline_runtime (lit "EAAG-token") (lit "1098765")
    (Some (lit "app-1")) true (text_message "1555" "hi") empty_world
  = (Ok tt,
     {| storage := ∅;
        trace :=
          [ StorageGet (lit "whatsapp:1098765:1555");
            AppInvoke
              (invoke_params (lit "app-1") (PStr (lit "hi"))
                 (identify_inputs (lit "1098765") (PStr (lit "1555"))) None);
            HttpPost (whatsapp_request (lit "EAAG-token") (lit "1098765")
                        (PStr (lit "1555")) (PStr (lit "hi")) 10) ] |}).
Proof.
  apply (echo_fallback offline_runtime (lit "EAAG-token") (lit "1098765")
           (Some (lit "app-1")) true (text_message "1555" "hi")
           (PStr (lit "1555")) (PStr (lit "hi")) empty_world None
           {| storage := ∅;
              trace :=
                [ StorageGet (lit "whatsapp:1098765:1555");
                  AppInvoke
                    (invoke_params (lit "app-1") (PStr (lit "hi"))
                       (identify_inputs (lit "1098765") (PStr (lit "1555")))
                       None) ] |}
           eq_refl eq_refl eq_refl eq_refl eq_refl (or_introl eq_refl)).
Defined.

(** C9 (counterexample): a text message whose body is the empty string,
    an App that answers "hello": the answer is sent. *)
Lemma empty_text_is_answered :
  _extract_text (text_message "1555" "") = Ok (PStr [])
  /\ In (HttpPost (whatsapp_request (lit "EAAG-token") (lit "1098765")
                     (PStr (lit "1555")) (PStr (lit "hello")) 10))
        (trace (process_message
                  (answering_runtime (PDict [ (lit "answer", PStr (lit "hello")) ]))
                  (lit "EAAG-token") (lit "1098765") (Some (lit "app-1")) true
                  (text_message "1555" "") empty_world).2).
Proof. split; [reflexivity|]. vm_compute. auto. Qed.

(** C9 (amended): every send that handling a message performs goes to the
    message's [from] and carries a body that is true, so never the empty
    string; and for a text message whose body is the empty string a send
    happens only when the App gave a reply that is not empty, which is
    then the body sent. *)
Theorem send_goes_to_sender_with_text rt access_token phone_number_id app_id
    can_reply message w :
  exists evs,
    trace (process_message rt access_token phone_number_id app_id can_reply
             message w).2 = trace w ++ evs
    /\ forall req, In (HttpPost req) evs ->
       exists sender body,
         py_get message (lit "from") = Ok sender
         /\ req = whatsapp_request access_token phone_number_id sender body 10
         /\ truthy body = true
         /\ body <> PStr []
         /\ (_extract_text message = Ok (PStr []) ->
             exists c cs,
               (app_reply rt phone_number_id app_id sender (PStr []) w).1
               = Ok (Some (c :: cs))
               /\ body = PStr (c :: cs)).
Proof.
  destruct (py_get message (lit "from")) as [sender|e] eqn:Hf.
  2:{ exists []. unfold process_message, mbind, M_bind, lift. rewrite Hf.
      cbn. rewrite app_nil_r. split; [reflexivity | tauto]. }
  destruct (_extract_text message) as [text_body|e] eqn:Ht.
  2:{ exists []. unfold process_message, mbind, M_bind, lift. rewrite Hf, Ht.
      cbn. rewrite app_nil_r. split; [reflexivity | tauto]. }
  destruct (negb (truthy sender) || is_none text_body) eqn:Hskip.
  { exists []. unfold process_message, mbind, M_bind, lift.
    rewrite Hf, Ht, Hskip. cbn. rewrite app_nil_r. split; [reflexivity | tauto]. }
  apply orb_false_elim in Hskip as [Hs Hn]. apply negb_false_iff in Hs.
  destruct (app_reply_trace rt phone_number_id app_id sender text_body w)
    as (reply & w1 & evs1 & Hr & Htr & Hno).
  rewrite (process_message_text _ _ _ _ _ _ _ _ _ _ _ Hf Ht Hs Hn Hr).
  cbn [snd].
  destruct (can_reply && truthy (choose_reply reply text_body)) eqn:Hsend.
  2:{ exists evs1. split; [exact Htr|]. intros req Hin. destruct (Hno _ Hin). }
  apply andb_prop in Hsend as [_ Htrue].
  eexists (evs1 ++ [_]). split.
  { cbn. rewrite Htr, app_assoc. reflexivity. }
  intros req Hin. apply in_app_or in Hin as [Hin|[Hin|[]]];
    [destruct (Hno _ Hin)|].
  injection Hin as <-. exists sender, (choose_reply reply text_body).
  split; [reflexivity|]. split; [reflexivity|]. split; [exact Htrue|].
  split.
  { intros Hb. rewrite Hb in Htrue. discriminate. }
  intros [= ->]. rewrite Hr. cbn [fst].
  destruct reply as [[|c cs]|]; try discriminate. eauto.
Qed.

(** ** The direct-send tool's guards *)

Lemma nonempty_false s : nonempty s = false <-> s = [].
Proof. destruct s; cbn; split; intros; congruence. Qed.

(** C6: when the access token, the phone number id, [to] or [text] is
    empty once stripped, the tool yields an error log and a final error
    text (the configuration error when a credential is missing, else the
    missing-parameters error), and the world is unchanged: no POST. *)
Theorem missing_input_no_network_call rt credentials tool_parameters w :
  or_empty_strip (cred_access_token credentials) = []
  \/ or_empty_strip (cred_phone_number_id credentials) = []
  \/ or_empty_strip (to tool_parameters) = []
  \/ or_empty_strip (text_param tool_parameters) = [] ->
  exists label details message,
    SendMessageTool._invoke rt credentials tool_parameters w
    = (Ok [ LogMessage label details (Some ERROR); TextMessage message ], w)
    /\ (message = lit "Configuration error: missing WhatsApp credentials"
        \/ message = lit "Missing required parameters: to, text")
    /\ (message = lit "Configuration error: missing WhatsApp credentials"
        <-> or_empty_strip (cred_access_token credentials) = []
            \/ or_empty_strip (cred_phone_number_id credentials) = []).
Proof.
  intros H. unfold SendMessageTool._invoke.
  destruct (nonempty (or_empty_strip (cred_access_token credentials))) eqn:Ea;
    [destruct (nonempty (or_empty_strip (cred_phone_number_id credentials))) eqn:Ep|].
  - destruct (negb (nonempty (or_empty_strip (to tool_parameters)))
              || negb (nonempty (or_empty_strip (text_param tool_parameters))))
      eqn:Eq.
    + cbn [negb orb]. do 3 eexists. split; [reflexivity|]. split; [right; reflexivity|].
      split; [discriminate|].
      intros [E|E]; apply (proj2 (nonempty_false _)) in E; congruence.
    + exfalso. apply orb_false_elim in Eq as [E1 E2].
      apply negb_false_iff in E1, E2.
      destruct H as [H|[H|[H|H]]]; apply (proj2 (nonempty_false _)) in H;
        congruence.
  - cbn [negb orb]. do 3 eexists. split; [reflexivity|]. split; [left; reflexivity|].
    split; [|reflexivity]. intros _. right. apply (proj1 (nonempty_false _)), Ep.
  - cbn [negb orb]. do 3 eexists. split; [reflexivity|]. split; [left; reflexivity|].
    split; [|reflexivity]. intros _. left. apply (proj1 (nonempty_false _)), Ea.
Qed.

Lemma missing_input_no_network_call_witness :
  exists label details message,
    SendMessageTool._invoke offline_runtime
      {| cred_access_token := Some (lit "EAAG-token");
         cred_phone_number_id := Some (lit "1098765") |}
      {| to := Some (lit "   "); text_param := Some (lit "hello") |}
      empty_world
    = (Ok [ LogMessage label details (Some ERROR); TextMessage message ],
       empty_world)
    /\ message = lit "Missing required parameters: to, text".
Proof.
  destruct (missing_input_no_network_call offline_runtime
              {| cred_access_token := Some (lit "EAAG-token");
                 cred_phone_number_id := Some (lit "1098765") |}
              {| to := Some (lit "   "); text_param := Some (lit "hello") |}
              empty_world (or_intror (or_intror (or_introl eq_refl))))
    as (label & details & message & E & _ & _).
  exists label, details, message. split; [exact E|].
  vm_compute in E. injection E as _ _ E. symmetry. exact E.
Defined.

(** *** A recipient without digits *)

Lemma lstrip_incl s c : In c (lstrip s) -> In c s.
Proof.
  induction s as [|a s IH]; simpl; [tauto|].
  destruct (is_whitespace a); [auto | simpl; tauto].
Qed.

Lemma strip_incl s c : In c (strip s) -> In c s.
Proof.
  unfold strip, rstrip. intros H.
  apply in_rev, lstrip_incl in H. apply in_rev in H.
  apply lstrip_incl, H.
Qed.

Lemma normalize_no_digit s :
  (forall c, In c s -> is_digit c = false) -> normalize s = [].
Proof.
  unfold normalize. induction s as [|a s IH]; intros H; simpl; [reflexivity|].
  rewrite (H a (or_introl eq_refl)). apply IH. intros c Hc. apply H. right. exact Hc.
Qed.

Lemma head_differs (s t : list N) : head s <> head t -> s <> t.
Proof. intros H E. apply H. rewrite E. reflexivity. Qed.

Ltac other_text :=
  apply bool_decide_eq_false_2, head_differs; vm_compute; discriminate.

Lemma exception_messages_not_parameter rt e :
  Forall (fun m => is_parameter_error m = false) (exception_messages rt e).
Proof. repeat constructor; other_text. Qed.

Lemma after_response_not_parameter rt to resp :
  Forall (fun m => is_parameter_error m = false) (after_response rt to resp).
Proof.
  unfold after_response.
  destruct ((200 <=? status_code resp)%Z && (status_code resp <? 300)%Z).
  - repeat constructor; try other_text.
    unfold summary. destruct (wa_message_id (safe_json resp)); cbn; other_text.
  - destruct (extract_api_error (safe_json resp)) as [[ae|]|e].
    + destruct (truthy ae); [destruct (suggest_fix ae)|].
      * repeat constructor; other_text.
      * constructor; [other_text | apply exception_messages_not_parameter].
      * repeat constructor; other_text.
    + repeat constructor; other_text.
    + constructor; [other_text | apply exception_messages_not_parameter].
Qed.

(** C10 (counterexample): [to] is a single space.  It is not empty and
    holds no decimal digit, yet the parameter check, which tests the
    stripped value, refuses it: the tool yields the missing-parameters
    error and the world is unchanged, so no POST is issued. *)
Lemma blank_recipient_is_refused :
  lit " " <> []
  /\ Forall (fun c => is_digit c = false) (lit " ")
  /\ SendMessageTool._invoke offline_runtime valid_credentials
       {| to := Some (lit " "); text_param := Some (lit "hello") |} empty_world
     = (Ok [ LogMessage (lit "parameters")
               (PDict [ (lit "error", PStr (lit "Missing required parameters"));
                        (lit "to", PBool false);
                        (lit "text", PBool true) ])
               (Some ERROR);
             TextMessage (lit "Missing required parameters: to, text") ],
        empty_world).
Proof.
  split; [discriminate|]. split; [repeat constructor | reflexivity].
Qed.

(** C10 (amended): with credentials and text in place, a [to] that is not empty once
    stripped but holds no decimal digit passes the parameter check, which
    precedes normalization: no missing-parameter message is yielded, and
    the POST is issued with the empty string as recipient. *)
Theorem digitless_recipient_is_posted rt credentials tool_parameters w t :
  or_empty_strip (cred_access_token credentials) <> [] ->
  or_empty_strip (cred_phone_number_id credentials) <> [] ->
  or_empty_strip (text_param tool_parameters) <> [] ->
  to tool_parameters = Some t ->
  strip t <> [] ->
  (forall c, In c t -> is_digit c = false) ->
  let request :=
    whatsapp_request (or_empty_strip (cred_access_token credentials))
      (or_empty_strip (cred_phone_number_id credentials))
      (PStr []) (PStr (or_empty_strip (text_param tool_parameters))) 20 in
  exists messages,
    SendMessageTool._invoke rt credentials tool_parameters w
    = (Ok messages, log (HttpPost request) w)
    /\ Forall (fun m => is_parameter_error m = false) messages
    /\ assoc (match payload request with PDict d => d | _ => [] end) (lit "to")
       = Some (PStr []).
Proof.
  intros Ha Hp Hx Hto Hs Hd request.
  assert (Hn : normalize (or_empty_strip (to tool_parameters)) = []).
  { apply normalize_no_digit. intros c Hc. apply Hd.
    rewrite Hto in Hc. apply strip_incl, Hc. }
  unfold SendMessageTool._invoke.
  destruct (or_empty_strip (cred_access_token credentials)) as [|a1 a2] eqn:Ea;
    [congruence|].
  destruct (or_empty_strip (cred_phone_number_id credentials)) as [|p1 p2] eqn:Ep;
    [congruence|].
  destruct (or_empty_strip (text_param tool_parameters)) as [|x1 x2] eqn:Ex;
    [congruence|].
  destruct (or_empty_strip (to tool_parameters)) as [|t1 t2] eqn:Et.
  { rewrite Hto in Et. contradiction. }
  cbn [nonempty negb orb]. rewrite Hn.
  unfold try_except, mbind, M_bind, http_post. fold request.
  destruct (requests_post rt request) as [resp|e]; eexists;
    (split; [reflexivity|]); (split; [|reflexivity]);
    (constructor; [other_text|]).
  - apply after_response_not_parameter.
  - apply exception_messages_not_parameter.
Qed.

Lemma digitless_recipient_is_posted_witness :
  exists messages,
    SendMessageTool._invoke offline_runtime
      {| cred_access_token := Some (lit "EAAG-token");
         cred_phone_number_id := Some (lit "1098765") |}
      {| to := Some (lit "abc"); text_param := Some (lit "hello") |}
      empty_world
    = (Ok messages,
       log (HttpPost (whatsapp_request (lit "EAAG-token") (lit "1098765")
                        (PStr []) (PStr (lit "hello")) 20)) empty_world)
    /\ Forall (fun m => is_parameter_error m = false) messages.
Proof.
  destruct (digitless_recipient_is_posted offline_runtime
              {| cred_access_token := Some (lit "EAAG-token");
                 cred_phone_number_id := Some (lit "1098765") |}
              {| to := Some (lit "abc"); text_param := Some (lit "hello") |}
              empty_world (lit "abc")
              ltac:(vm_compute; discriminate) ltac:(vm_compute; discriminate)
              ltac:(vm_compute; discriminate) eq_refl
              ltac:(vm_compute; discriminate)
              ltac:(intros c [<-|[<-|[<-|[]]]]; reflexivity))
    as (messages & E & H & _).
  exists messages. split; [exact E | exact H].
Defined.

(** ** The remediation hint *)

Lemma extract_api_error_shape body api_error :
  extract_api_error body = Ok (Some api_error) ->
  exists code type message error_subcode,
    api_error = api_error_of code type message error_subcode.
Proof.
  unfold extract_api_error. destruct body as [| | | | |d]; try discriminate.
  destruct (has_key d (lit "error")); [|discriminate].
  unfold mbind, result_bind.
  destruct (py_get (PDict d) (lit "error")) as [err0|]; [|discriminate].
  destruct (py_get (py_or err0 (PDict [])) (lit "code")) as [code|];
    [|discriminate].
  destruct (py_get (py_or err0 (PDict [])) (lit "type")) as [type|];
    [|discriminate].
  destruct (py_get (py_or err0 (PDict [])) (lit "message")) as [message|];
    [|discriminate].
  destruct (py_get (py_or err0 (PDict [])) (lit "error_subcode")) as [sub|];
    [|discriminate].
  intros [= <-]. exists code, type, message, sub. reflexivity.
Qed.

Lemma suggest_fix_fields code type message error_subcode :
  suggest_fix (api_error_of code type message error_subcode)
  = if eq_int code 190 then Ok hint_token
    else if eq_int code 100 then Ok hint_parameters
    else
      opted_out ← in_subcode_set error_subcode;
      if (opted_out : bool) then Ok hint_opt_in
      else
        unsupported ← str_in (lit "Unsupported post request")
                         (py_or message (PStr []));
        if (unsupported : bool) then Ok hint_mismatch else Ok hint_generic.
Proof. reflexivity. Qed.

(** C8 (counterexample): the response body's error has code 1 and an
    array as [error_subcode]; the table's last row applies, but the
    membership test hashes the array and raises: no hint is produced. *)
Lemma unhashable_subcode_gives_no_hint :
  let api_error :=
    api_error_of (PInt 1) PNone (PStr (lit "Unknown error")) (PList []) in
  extract_api_error unhashable_subcode_body = Ok (Some api_error)
  /\ hint_table api_error = hint_generic
  /\ suggest_fix api_error = Raise TypeError
  /\ suggest_fix api_error <> Ok (hint_table api_error).
Proof.
  cbv zeta. split; [reflexivity|]. split; [reflexivity|].
  split; [reflexivity | discriminate].
Qed.

(** C8 (amended): for every API error extracted from a response body on
    which the rows can be evaluated (the code is 190 or 100, or else the
    subcode is not a list or mapping and, unless it is one of the three
    numbers, the message is a string or a false value), the hint is the
    one of the first row that applies: code 190, code 100, subcode one of
    2018049, 131000, 131031, message containing "Unsupported post
    request", and the generic hint otherwise. *)
Theorem hint_follows_table body api_error :
  extract_api_error body = Ok (Some api_error) ->
  lookup_applies api_error = true ->
  suggest_fix api_error = Ok (hint_table api_error).
Proof.
  intros E H.
  destruct (extract_api_error_shape _ _ E) as (code & type & message & sub & ->).
  rewrite suggest_fix_fields.
  change (hint_table (api_error_of code type message sub))
    with (if eq_int code 190 then hint_token
          else if eq_int code 100 then hint_parameters
          else if existsb (eq_int sub) opt_in_subcodes then hint_opt_in
          else if match message with
                  | PStr s => contains (lit "Unsupported post request") s
                  | _ => false
                  end
          then hint_mismatch else hint_generic).
  change (lookup_applies (api_error_of code type message sub))
    with (eq_int code 190 || eq_int code 100
          || (hashable sub
              && (existsb (eq_int sub) opt_in_subcodes || text_or_false message)))
    in H.
  destruct (eq_int code 190); [reflexivity|].
  destruct (eq_int code 100); [reflexivity|].
  cbn [orb] in H. apply andb_prop in H as [Hh Hm].
  assert (Hs : in_subcode_set sub = Ok (existsb (eq_int sub) opt_in_subcodes))
    by (destruct sub; try discriminate; reflexivity).
  rewrite Hs. unfold mbind, result_bind.
  destruct (existsb (eq_int sub) opt_in_subcodes); [reflexivity|].
  cbn [orb] in Hm.
  destruct message as [|[|]|n|s|[|x l]|[|kv d]]; try discriminate; try reflexivity.
  - unfold text_or_false, truthy in Hm. apply negb_true_iff, negb_false_iff in Hm.
    apply Z.eqb_eq in Hm. subst n. reflexivity.
  - destruct s as [|c s]; [reflexivity|].
    unfold py_or, truthy. rewrite bool_decide_eq_false_2 by discriminate.
    cbn [negb str_in].
    destruct (contains (lit "Unsupported post request") (c :: s)); reflexivity.
Qed.

Lemma hint_follows_table_witness :
  suggest_fix (api_error_of (PInt 190) PNone PNone PNone) = Ok hint_token.
Proof.
  apply (hint_follows_table
           (PDict [ (lit "error", PDict [ (lit "code", PInt 190) ]) ])
           (api_error_of (PInt 190) PNone PNone PNone) eq_refl eq_refl).
Defined.

(** ** The pipeline end to end *)

(** Once the membership test of line 148 has been passed, whatever the walk
    does or raises, the answer is 200 "ok". *)
Lemma handle_webhook_acknowledges rt r settings w parsed present :
  get_json true r = Ok parsed ->
  str_in (lit "entry") (py_or parsed (PDict [])) = Ok present ->
  (_handle_webhook rt r settings w).1 = Ok _ok.
Proof.
  intros E H. unfold _handle_webhook. rewrite E.
  destruct (truthy (py_or parsed (PDict []))); [|reflexivity]. cbn [negb].
  unfold mbind, M_bind, lift. rewrite H.
  destruct present; [|reflexivity]. cbn [negb]. unfold try_except.
  match goal with
  | |- context [walk ?a ?b ?c ?d ?e ?f ?g] =>
      destruct (walk a b c d e f g) as [[[]|] w0]
  end; reflexivity.
Qed.

(** A text "hi" from "1555", no App configured, credentials set: "hi" is
    sent back to "1555" and the webhook is acknowledged. *)
Example webhook_echoes_without_app :
  WhatsappBotEndpoint._invoke offline_runtime
    (post_request (Decodes one_text_message)) valid_settings empty_world
  = (Ok _ok,
     {| storage := ∅;
        trace := [ HttpPost (whatsapp_request (lit "EAAG-token") (lit "1098765")
                               (PStr (lit "1555")) (PStr (lit "hi")) 10) ] |}).
Proof. reflexivity. Qed.

(** A message that is not a text is skipped: nothing is read, invoked or
    sent for it. *)
Lemma non_text_message_skipped rt access_token phone_number_id app_id can_reply
    d w :
  eq_str (field d "type") (lit "text") = false ->
  process_message rt access_token phone_number_id app_id can_reply (PDict d) w
  = (Ok tt, w).
Proof.
  intros H. unfold process_message, mbind, M_bind, lift, _extract_text, py_get,
    mbind, result_bind.
  unfold field in H. rewrite H. cbn [is_none]. rewrite orb_true_r. reflexivity.
Qed.

(** The subscription handshake: the challenge is echoed when the token
    matches, and refused otherwise. *)
Example verify_echoes_challenge :
  WhatsappBotEndpoint._invoke offline_runtime (verify_request "abc")
    valid_settings empty_world
  = (Ok {| body := lit "999"; status := 200; content_type := lit "text/plain" |},
     empty_world).
Proof. reflexivity. Qed.

Example verify_refuses_mismatch :
  WhatsappBotEndpoint._invoke offline_runtime (verify_request "xyz")
    valid_settings empty_world
  = (Ok (text_response "Forbidden" 403), empty_world).
Proof. reflexivity. Qed.

Example direct_send_summary :
  exists first response_log sent,
    (SendMessageTool._invoke accepting_runtime
       {| cred_access_token := Some (lit "EAAG-token");
          cred_phone_number_id := Some (lit "1098765") |}
       {| to := Some (lit "+1 555-0100"); text_param := Some (lit "hello") |}
       empty_world).1
    = Ok [ first; response_log; JsonMessage sent;
           TextMessage (lit "sent to 15550100 (id: wamid.X)") ]
    /\ field (match sent with PDict d => d | _ => [] end) "to"
       = PStr (lit "15550100").
Proof. do 3 eexists. split; reflexivity. Qed.

(** A refusal with code 190 is reported with the token hint. *)
Example direct_send_expired_token :
  exists first response_log error,
    (SendMessageTool._invoke (refusing_runtime (PDict [ (lit "code", PInt 190) ]))
       valid_credentials send_hello empty_world).1
    = Ok [ first; response_log;
           JsonMessage (PDict [ (lit "error", error);
                                (lit "hint", PStr hint_token) ]) ].
Proof. do 3 eexists. reflexivity. Qed.

(** A refusal whose [error_subcode] is an array ends in the [except]
    clause: no hint is yielded. *)
Example direct_send_unhashable_subcode :
  exists first response_log,
    (SendMessageTool._invoke
       (refusing_runtime (PDict [ (lit "code", PInt 1);
                                  (lit "error_subcode", PList []) ]))
       valid_credentials send_hello empty_world).1
    = Ok (first :: response_log
          :: exception_messages
               (refusing_runtime (PDict [ (lit "code", PInt 1);
                                          (lit "error_subcode", PList []) ]))
               TypeError).
Proof. do 2 eexists. reflexivity. Qed.

(** * Further properties *)

(** ** Stripping *)

Lemma lstrip_head s c t : lstrip s = c :: t -> is_whitespace c = false.
Proof.
  induction s as [|a s IH]; simpl; [discriminate|].
  destruct (is_whitespace a) eqn:E; [exact IH|].
  intros [= <- _]. exact E.
Qed.

Lemma lstrip_fixed c t : is_whitespace c = false -> lstrip (c :: t) = c :: t.
Proof. intros H. simpl. rewrite H. reflexivity. Qed.

Lemma lstrip_idempotent s : lstrip (lstrip s) = lstrip s.
Proof.
  destruct (lstrip s) as [|c t] eqn:E; [reflexivity|].
  apply lstrip_fixed, (lstrip_head _ _ _ E).
Qed.

Lemma lstrip_snoc l c :
  is_whitespace c = false -> lstrip (l ++ [c]) = lstrip l ++ [c].
Proof.
  intros H. induction l as [|a l IH]; simpl.
  - rewrite H. reflexivity.
  - destruct (is_whitespace a); [exact IH | reflexivity].
Qed.

Lemma rstrip_cons c t :
  is_whitespace c = false -> rstrip (c :: t) = c :: rstrip t.
Proof.
  intros H. unfold rstrip. simpl rev at 2.
  rewrite (lstrip_snoc _ _ H), rev_app_distr. reflexivity.
Qed.

Lemma rstrip_idempotent s : rstrip (rstrip s) = rstrip s.
Proof. unfold rstrip. rewrite rev_involutive, lstrip_idempotent. reflexivity. Qed.

Lemma strip_cases s :
  strip s = [] \/ exists c t, is_whitespace c = false /\ strip s = c :: rstrip t.
Proof.
  unfold strip. destruct (lstrip s) as [|c t] eqn:E; [left; reflexivity|].
  right. exists c, t. pose proof (lstrip_head _ _ _ E) as H.
  split; [exact H | apply rstrip_cons, H].
Qed.

Lemma strip_idempotent s : strip (strip s) = strip s.
Proof.
  destruct (strip_cases s) as [E|(c & t & H & E)]; rewrite E; [reflexivity|].
  unfold strip. rewrite (lstrip_fixed _ _ H), <- (rstrip_cons _ _ H).
  apply rstrip_idempotent.
Qed.

Lemma strip_trimmed s : trimmed (strip s).
Proof.
  split.
  - destruct (strip_cases s) as [E|(c & t & H & E)]; rewrite E; intros c';
      [discriminate|]. intros [= <-]. exact H.
  - unfold last_char, strip, rstrip. rewrite rev_involutive. intros c Hc.
    destruct (lstrip (rev (lstrip s))) as [|c' t] eqn:E; [discriminate|].
    injection Hc as <-. exact (lstrip_head _ _ _ E).
Qed.

Lemma or_empty_strip_fixed v :
  or_empty_strip (Some (or_empty_strip v)) = or_empty_strip v.
Proof. unfold or_empty_strip. cbn [default]. apply strip_idempotent. Qed.

(** ** The verification handshake *)

Lemma handle_verify_status r settings :
  status (_handle_verify r settings) = 200%Z
  \/ _handle_verify r settings = text_response "Forbidden" 403.
Proof.
  unfold _handle_verify. destruct (lookup_arg (args r) (lit "hub.challenge"));
    [|auto].
  match goal with |- context [if ?b then _ else _] => destruct b end; auto.
Qed.

(** X1: a GET is answered 200 only when the mode is "subscribe", the
    configured token is not blank, and the token supplied equals it (both
    stripped); the body is then the challenge exactly as it was sent. *)
Theorem verify_accepts_only_matching_token r settings :
  status (_handle_verify r settings) = 200%Z ->
  verify_mode r = lit "subscribe"
  /\ or_empty_strip (verify_token settings) <> []
  /\ verify_supplied_token r = or_empty_strip (verify_token settings)
  /\ lookup_arg (args r) (lit "hub.challenge")
     = Some (body (_handle_verify r settings))
  /\ content_type (_handle_verify r settings) = lit "text/plain".
Proof.
  unfold _handle_verify. fold (verify_mode r) (verify_supplied_token r).
  destruct (lookup_arg (args r) (lit "hub.challenge")) as [c|];
    [|discriminate].
  destruct (bool_decide (verify_mode r = lit "subscribe")) eqn:Em;
    [|discriminate].
  destruct (nonempty (or_empty_strip (verify_token settings))) eqn:En;
    [|discriminate].
  destruct (bool_decide (verify_supplied_token r
                         = or_empty_strip (verify_token settings))) eqn:Et;
    [|discriminate].
  intros _. apply bool_decide_eq_true_1 in Em, Et.
  repeat split; auto.
  intros E. rewrite E in En. discriminate.
Qed.

Lemma verify_accepts_only_matching_token_witness :
  verify_supplied_token (verify_request " abc ")
  = or_empty_strip (verify_token valid_settings)
  /\ lookup_arg (args (verify_request " abc ")) (lit "hub.challenge")
     = Some (lit "999").
Proof.
  destruct (verify_accepts_only_matching_token (verify_request " abc ")
              valid_settings eq_refl) as (_ & _ & H & Hc & _).
  split; [exact H | exact Hc].
Defined.

(** X2: while the configured [verify_token] is unset or blank, no GET is
    verified, whatever it supplies: the answer is 403 "Forbidden". *)
Theorem blank_verify_token_refuses_all rt r settings w :
  method r = lit "GET" ->
  or_empty_strip (verify_token settings) = [] ->
  WhatsappBotEndpoint._invoke rt r settings w
  = (Ok (text_response "Forbidden" 403), w).
Proof.
  intros Hm He. unfold WhatsappBotEndpoint._invoke. rewrite Hm.
  rewrite bool_decide_eq_true_2 by reflexivity.
  unfold _handle_verify. rewrite He. cbn [nonempty].
  rewrite andb_false_r. cbn [andb].
  destruct (lookup_arg (args r) (lit "hub.challenge")); reflexivity.
Qed.

Lemma blank_verify_token_refuses_all_witness :
  WhatsappBotEndpoint._invoke offline_runtime
    {| method := lit "GET";
       args := [ (lit "hub.mode", lit "subscribe");
                 (lit "hub.verify_token", []);
                 (lit "hub.challenge", lit "999") ];
       is_json := false; data := Undecodable |}
    {| access_token := None; phone_number_id := None; app := AppUnset;
       verify_token := Some (lit "  ") |}
    empty_world
  = (Ok (text_response "Forbidden" 403), empty_world).
Proof.
  apply (blank_verify_token_refuses_all offline_runtime
           {| method := lit "GET";
              args := [ (lit "hub.mode", lit "subscribe");
                        (lit "hub.verify_token", []);
                        (lit "hub.challenge", lit "999") ];
              is_json := false; data := Undecodable |}
           {| access_token := None; phone_number_id := None; app := AppUnset;
              verify_token := Some (lit "  ") |}
           empty_world eq_refl eq_refl).
Defined.

(** X3: a request that is not a POST reaches neither the storage, nor the
    App, nor the network: the world is as before, and the answer is the
    handshake's 200 or 403 for a GET and 405 for any other method. *)
Theorem only_post_has_effects rt r settings w :
  method r <> lit "POST" ->
  exists resp,
    WhatsappBotEndpoint._invoke rt r settings w = (Ok resp, w)
    /\ (method r = lit "GET" ->
        status resp = 200%Z \/ resp = text_response "Forbidden" 403)
    /\ (method r <> lit "GET" -> resp = text_response "Method Not Allowed" 405).
Proof.
  intros Hp. unfold WhatsappBotEndpoint._invoke.
  destruct (bool_decide (method r = lit "GET")) eqn:Eg.
  - eexists. split; [reflexivity|]. split.
    + intros _. apply handle_verify_status.
    + intros Hn. apply bool_decide_eq_true_1 in Eg. contradiction.
  - rewrite bool_decide_eq_false_2 by exact Hp. cbn [negb].
    eexists. split; [reflexivity|]. split.
    + intros Hg. apply bool_decide_eq_false_1 in Eg. contradiction.
    + reflexivity.
Qed.

Lemma only_post_has_effects_witness :
  exists resp,
    WhatsappBotEndpoint._invoke offline_runtime
      {| method := lit "DELETE"; args := []; is_json := true;
         data := Decodes one_text_message |}
      valid_settings empty_world
    = (Ok resp, empty_world)
    /\ resp = text_response "Method Not Allowed" 405.
Proof.
  destruct (only_post_has_effects offline_runtime
              {| method := lit "DELETE"; args := []; is_json := true;
                 data := Decodes one_text_message |}
              valid_settings empty_world ltac:(vm_compute; discriminate))
    as (resp & E & _ & H).
  exists resp. split; [exact E|]. apply H. vm_compute. discriminate.
Defined.

(** ** The App selector *)

(** X4: an app id, when [_get_app_id] gives one, is not empty and has no
    whitespace at either end. *)
Theorem app_id_is_trimmed app_setting id :
  _get_app_id app_setting = Some id ->
  id <> [] /\ trimmed id.
Proof.
  unfold _get_app_id, or_empty_strip.
  destruct app_setting as [|s|a i|]; try discriminate.
  - destruct (nonempty (strip s)) eqn:E; [|discriminate].
    intros [= <-]. split; [|apply strip_trimmed].
    intros H. rewrite H in E. discriminate.
  - destruct (nonempty (strip _)) eqn:E; [|discriminate].
    intros [= <-]. split; [|apply strip_trimmed].
    intros H. rewrite H in E. discriminate.
Qed.

Lemma app_id_is_trimmed_witness :
  lit "app-1" <> [] /\ trimmed (lit "app-1").
Proof.
  apply (app_id_is_trimmed (AppMapping None (Some (lit "  app-1 ")))
           (lit "app-1") eq_refl).
Defined.

(** X5: in a mapping, an [app_id] that is present and not the empty string
    decides alone: [id] is consulted only when [app_id] is absent or
    empty, so a blank [app_id] hides a usable [id]. *)
Theorem app_id_key_decides c cs i :
  (forall i', _get_app_id (AppMapping (Some (c :: cs)) i)
              = _get_app_id (AppMapping (Some (c :: cs)) i'))
  /\ (strip (c :: cs) = [] ->
      _get_app_id (AppMapping (Some (c :: cs)) i) = None)
  /\ _get_app_id (AppMapping None i) = _get_app_id (AppMapping (Some []) i)
  /\ (forall s, _get_app_id (AppMapping None (Some s))
                = _get_app_id (AppString s)).
Proof.
  split; [reflexivity|]. split.
  - intros E. unfold _get_app_id, or_empty_strip, str_or. cbn [default id].
    rewrite E. reflexivity.
  - split; [reflexivity|]. intros [|x s]; reflexivity.
Qed.

(** ** The bridge and the storage *)

Lemma persist_other_keys rt key new w k :
  k <> key -> storage (persist rt key new w) !! k = storage w !! k.
Proof.
  intros Hk. unfold persist. destruct (truthy new); [|reflexivity].
  destruct (utf8_encode (py_str rt new)) as [b|]; [|reflexivity].
  unfold storage_set. destruct (storage_set_fails rt key); [reflexivity|].
  cbn [snd storage]. apply lookup_insert_ne. congruence.
Qed.

Lemma invoke_app_reply_storage rt app_id query inputs key w :
  (exists d,
     chat_invoke rt (bridge_request rt app_id query inputs key w) = Ok (PDict d)
     /\ storage (_invoke_app_reply rt app_id query inputs key w).2
        = storage (persist rt key (field d "conversation_id") w))
  \/ ((forall d, chat_invoke rt (bridge_request rt app_id query inputs key w)
                 <> Ok (PDict d))
      /\ storage (_invoke_app_reply rt app_id query inputs key w).2 = storage w).
Proof.
  destruct (chat_invoke rt (bridge_request rt app_id query inputs key w))
    as [v|e] eqn:E.
  2:{ right. split; [discriminate|].
      rewrite invoke_app_reply_unanswered; [reflexivity|].
      intros d. rewrite E. discriminate. }
  destruct v as [| | | | |d].
  6:{ left. exists d. split; [reflexivity|].
      rewrite (invoke_app_reply_answered _ _ _ _ _ _ _ E). cbn [snd].
      unfold persist. destruct (truthy (field d "conversation_id")); [|reflexivity].
      destruct (utf8_encode _); [|reflexivity].
      unfold storage_set. destruct (storage_set_fails rt key); reflexivity. }
  all: right; split; [discriminate|];
    rewrite invoke_app_reply_unanswered; [reflexivity|];
    intros d; rewrite E; discriminate.
Qed.

(** X6: whatever the storage and the App do, the bridge returns normally;
    it reads the key once, invokes the App once with the request built
    from what it read, writes at most once and only under that key, posts
    nothing, and leaves every other key of the storage as it was. *)
Theorem bridge_is_contained rt app_id query inputs key w :
  exists reply w' writes,
    _invoke_app_reply rt app_id query inputs key w = (Ok reply, w')
    /\ trace w'
       = trace w
         ++ StorageGet key
            :: AppInvoke (bridge_request rt app_id query inputs key w)
            :: writes
    /\ (writes = [] \/ exists b, writes = [StorageSet key b])
    /\ forall k, k <> key -> storage w' !! k = storage w !! k.
Proof.
  destruct (invoke_app_reply_trace rt app_id query inputs key w)
    as (reply & w' & E & Htr).
  assert (Hst : forall k, k <> key -> storage w' !! k = storage w !! k).
  { intros k Hk.
    destruct (invoke_app_reply_storage rt app_id query inputs key w)
      as [(d & _ & Hs)|[_ Hs]]; rewrite E in Hs; cbn [snd] in Hs; rewrite Hs;
      [apply persist_other_keys, Hk | reflexivity]. }
  destruct Htr as [Htr|[b Htr]].
  - exists reply, w', []. auto.
  - exists reply, w', [StorageSet key b]. split; [exact E|].
    split; [exact Htr|]. split; [right; eauto | exact Hst].
Qed.

(** X7: when nothing is stored under the key, or the read fails, the
    request sent to the App carries no [conversation_id]: the turn starts
    a fresh conversation, and the bridge still answers. *)
Theorem unknown_conversation_starts_fresh rt app_id query inputs key w :
  storage w !! key = None \/ storage_get_fails rt key = true ->
  assoc (invoke_params app_id query inputs None) (lit "conversation_id") = None
  /\ exists reply w' writes,
       _invoke_app_reply rt app_id query inputs key w = (Ok reply, w')
       /\ trace w'
          = trace w
            ++ StorageGet key
               :: AppInvoke (invoke_params app_id query inputs None)
               :: writes.
Proof.
  intros H. split; [reflexivity|].
  assert (Hn : stored_conversation_id rt key w = None).
  { unfold stored_conversation_id.
    destruct (storage_get_fails rt key); [reflexivity|].
    destruct H as [->|H]; [reflexivity | discriminate]. }
  destruct (invoke_app_reply_trace rt app_id query inputs key w)
    as (reply & w' & E & Htr).
  unfold bridge_request in Htr. rewrite Hn in Htr.
  destruct Htr as [Htr|[b Htr]].
  - exists reply, w', []. auto.
  - exists reply, w', [StorageSet key b]. auto.
Qed.

Lemma unknown_conversation_starts_fresh_witness :
  exists reply w' writes,
    _invoke_app_reply (answering_runtime (PDict answer_with_id)) (lit "app-1")
      (PStr (lit "hello")) [] (lit "whatsapp:1098765:1555") empty_world
    = (Ok reply, w')
    /\ trace w'
       = trace empty_world
         ++ StorageGet (lit "whatsapp:1098765:1555")
            :: AppInvoke (invoke_params (lit "app-1") (PStr (lit "hello")) [] None)
            :: writes.
Proof.
  exact (proj2 (unknown_conversation_starts_fresh
                  (answering_runtime (PDict answer_with_id)) (lit "app-1")
                  (PStr (lit "hello")) [] (lit "whatsapp:1098765:1555")
                  empty_world (or_introl eq_refl))).
Defined.

(** X8: unless the App's response is a mapping whose [conversation_id] is
    true, the bridge leaves the whole storage as it was: a failed
    invocation or a response without an identifier keeps the stored one. *)
Theorem stored_token_survives rt app_id query inputs key w :
  (forall d,
     chat_invoke rt (bridge_request rt app_id query inputs key w) = Ok (PDict d) ->
     truthy (field d "conversation_id") = false) ->
  storage (_invoke_app_reply rt app_id query inputs key w).2 = storage w.
Proof.
  intros H.
  destruct (invoke_app_reply_storage rt app_id query inputs key w)
    as [(d & E & Hs)|[_ Hs]]; [|exact Hs].
  rewrite Hs. unfold persist. rewrite (H d E). reflexivity.
Qed.

Lemma stored_token_survives_witness :
  storage (_invoke_app_reply offline_runtime (lit "app-1") (PStr (lit "hello"))
             [] (lit "whatsapp:1098765:1555") world_with_token).2
  = storage world_with_token.
Proof.
  apply (stored_token_survives offline_runtime (lit "app-1")
           (PStr (lit "hello")) [] (lit "whatsapp:1098765:1555")
           world_with_token).
  intros d H. discriminate H.
Defined.

(** ** Conversation keys *)

Lemma split_at_first_colon p1 : forall p2 s1 s2,
  ~ In 58 p1 -> ~ In 58 p2 ->
  p1 ++ 58 :: s1 = p2 ++ 58 :: s2 -> p1 = p2 /\ s1 = s2.
Proof.
  induction p1 as [|a p1 IH]; intros [|b p2] s1 s2 H1 H2 E; simpl in *.
  - injection E as ->. auto.
  - injection E as <- _. tauto.
  - injection E as -> _. tauto.
  - injection E as -> E. destruct (IH p2 s1 s2) as [-> ->]; auto.
Qed.

(** X9: for phone number ids without a colon, the storage key tells the
    pair it was built from: two conversations with string senders share a
    key only when they have the same phone number id and the same sender. *)
Theorem conversation_key_injective rt p1 p2 s1 s2 :
  ~ In 58 p1 -> ~ In 58 p2 ->
  conversation_key rt p1 (PStr s1) = conversation_key rt p2 (PStr s2) ->
  p1 = p2 /\ s1 = s2.
Proof.
  intros H1 H2 E. unfold conversation_key in E. cbn [py_str] in E.
  apply app_inv_head in E.
  exact (split_at_first_colon p1 p2 s1 s2 H1 H2 E).
Qed.

Lemma conversation_key_injective_witness :
  lit "1098765" = lit "1098765" /\ lit "1555" = lit "1555".
Proof.
  apply (conversation_key_injective offline_runtime (lit "1098765")
           (lit "1098765") (lit "1555") (lit "1555"));
    [vm_compute; intuition discriminate
    |vm_compute; intuition discriminate
    |reflexivity].
Defined.

(** With a colon in the phone number id two different pairs can meet. *)
Example conversation_key_collision :
  conversation_key offline_runtime (lit "10:98") (PStr (lit "1555"))
  = conversation_key offline_runtime (lit "10") (PStr (lit "98:1555")).
Proof. reflexivity. Qed.

(** ** What a webhook request can do *)

Lemma adds_refl Q w : adds Q w w.
Proof. exists []. rewrite app_nil_r. auto. Qed.

Lemma adds_trans Q w1 w2 w3 : adds Q w1 w2 -> adds Q w2 w3 -> adds Q w1 w3.
Proof.
  intros (e1 & H1 & F1) (e2 & H2 & F2). exists (e1 ++ e2).
  rewrite H2, H1, app_assoc. split; [reflexivity | apply Forall_app; auto].
Qed.

Section Preserved.
(** A relation between the world before and after that every step
    keeps: it then holds across loops, the walk and the whole handler. *)
Variable R : World -> World -> Prop.
Hypothesis R_refl : forall w, R w w.
Hypothesis R_trans : forall w1 w2 w3, R w1 w2 -> R w2 w3 -> R w1 w3.

Lemma for_each_preserves {A} (xs : list A) (body : A -> M unit) :
  (forall x w, R w (body x w).2) -> forall w, R w (for_each xs body w).2.
Proof.
  intros H. induction xs as [|x xs IH]; intros w; [apply R_refl|].
  cbn [for_each]. unfold mbind, M_bind.
  pose proof (H x w) as Hx. destruct (body x w) as [[[]|e] w1]; cbn [snd] in *.
  - exact (R_trans _ _ _ Hx (IH w1)).
  - exact Hx.
Qed.

Lemma walk_preserves rt access_token phone_number_id app_id can_reply payload :
  (forall m w, R w (process_message rt access_token phone_number_id app_id
                      can_reply m w).2) ->
  forall w, R w (walk rt access_token phone_number_id app_id can_reply
                   payload w).2.
Proof.
  intros H w. unfold walk. unfold mbind at 1, M_bind at 1, lift at 1.
  destruct (py_get_default payload (lit "entry") (PList []) ≫= py_iter)
    as [entries|e]; [|apply R_refl].
  apply for_each_preserves. clear w. intros entry w.
  unfold mbind at 1, M_bind at 1, lift at 1.
  destruct (py_get_default entry (lit "changes") (PList []) ≫= py_iter)
    as [changes|e]; [|apply R_refl].
  apply for_each_preserves. clear w. intros change w.
  unfold mbind at 1, M_bind at 1, lift at 1.
  destruct (py_get change (lit "value")) as [value|e]; [|apply R_refl].
  unfold mbind at 1, M_bind at 1, lift at 1.
  destruct (py_get (py_or value (PDict [])) (lit "messages")) as [messages|e];
    [|apply R_refl].
  unfold mbind at 1, M_bind at 1, lift at 1.
  destruct (py_iter (py_or messages (PList []))) as [ms|e]; [|apply R_refl].
  apply for_each_preserves. exact H.
Qed.

Lemma handle_webhook_preserves rt r settings :
  (forall m w,
     R w (process_message rt (stripped_access_token settings)
            (stripped_phone_number_id settings) (_get_app_id (app settings))
            (can_reply_of settings) m w).2) ->
  forall w, R w (_handle_webhook rt r settings w).2.
Proof.
  intros H w. unfold _handle_webhook.
  destruct (get_json true r) as [parsed|e]; [|apply R_refl].
  destruct (truthy (py_or parsed (PDict []))); [|apply R_refl]. cbn [negb].
  unfold mbind at 1, M_bind at 1, lift at 1.
  destruct (str_in (lit "entry") (py_or parsed (PDict []))) as [[|]|e];
    cbn [negb]; try apply R_refl.
  unfold try_except, mbind, M_bind.
  pose proof (walk_preserves rt _ _ _ _ (py_or parsed (PDict [])) H w) as Hw.
  fold (stripped_access_token settings) (stripped_phone_number_id settings).
  fold (can_reply_of settings).
  destruct (walk rt (stripped_access_token settings)
              (stripped_phone_number_id settings) (_get_app_id (app settings))
              (can_reply_of settings) (py_or parsed (PDict [])) w)
    as [[[]|e] w1]; exact Hw.
Qed.

Lemma endpoint_preserves rt r settings :
  (forall m w,
     R w (process_message rt (stripped_access_token settings)
            (stripped_phone_number_id settings) (_get_app_id (app settings))
            (can_reply_of settings) m w).2) ->
  forall w, R w (WhatsappBotEndpoint._invoke rt r settings w).2.
Proof.
  intros H w. unfold WhatsappBotEndpoint._invoke.
  destruct (bool_decide (method r = lit "GET")); [apply R_refl|].
  destruct (negb (bool_decide (method r = lit "POST"))); [apply R_refl|].
  apply handle_webhook_preserves, H.
Qed.
End Preserved.

Lemma process_message_events rt access_token phone_number_id app_id can_reply
    message w :
  adds (webhook_event rt access_token phone_number_id app_id can_reply) w
    (process_message rt access_token phone_number_id app_id can_reply message w).2.
Proof.
  destruct (py_get message (lit "from")) as [sender|e] eqn:Hf.
  2:{ unfold process_message, mbind, M_bind, lift. rewrite Hf. apply adds_refl. }
  destruct (_extract_text message) as [text_body|e] eqn:Hx.
  2:{ unfold process_message, mbind, M_bind, lift. rewrite Hf, Hx.
      apply adds_refl. }
  destruct (negb (truthy sender) || is_none text_body) eqn:Hskip.
  { unfold process_message, mbind, M_bind, lift. rewrite Hf, Hx, Hskip.
    apply adds_refl. }
  apply orb_false_elim in Hskip as [Hs Hn]. apply negb_false_iff in Hs.
  assert (Hb : exists reply w1,
             app_reply rt phone_number_id app_id sender text_body w
             = (Ok reply, w1)
             /\ adds (webhook_event rt access_token phone_number_id app_id
                        can_reply) w w1).
  { unfold app_reply. destruct app_id as [[|c cs]|].
    1,3: exists None, w; split; [reflexivity | apply adds_refl].
    destruct (invoke_app_reply_trace rt (c :: cs) text_body
                (identify_inputs phone_number_id sender)
                (conversation_key rt phone_number_id sender) w)
      as (reply & w1 & E & Htr).
    exists reply, w1. split; [exact E|].
    assert (Hg : webhook_event rt access_token phone_number_id (Some (c :: cs))
                   can_reply
                   (StorageGet (conversation_key rt phone_number_id sender)))
      by (exists c, cs, sender; auto).
    assert (Hi : webhook_event rt access_token phone_number_id (Some (c :: cs))
                   can_reply
                   (AppInvoke (bridge_request rt (c :: cs) text_body
                                 (identify_inputs phone_number_id sender)
                                 (conversation_key rt phone_number_id sender) w)))
      by (do 5 eexists; repeat split; eauto).
    destruct Htr as [Htr|[b Htr]]; eexists; (split; [exact Htr|]).
    - constructor; [exact Hg|]. constructor; [exact Hi|]. constructor.
    - constructor; [exact Hg|]. constructor; [exact Hi|].
      constructor; [|constructor]. exists c, cs, sender. auto. }
  destruct Hb as (reply & w1 & Hr & Ha).
  rewrite (process_message_text _ _ _ _ _ _ _ _ _ _ _ Hf Hx Hs Hn Hr). cbn [snd].
  destruct (can_reply && truthy (choose_reply reply text_body)) eqn:Hsend;
    [|exact Ha].
  apply andb_prop in Hsend as [Hc Ht].
  apply (adds_trans _ _ _ _ Ha). eexists [_]. split; [reflexivity|].
  constructor; [|constructor]. split; [exact Hc|].
  exists sender, (choose_reply reply text_body). auto.
Qed.

(** X11: while a credential is missing (unset or blank), a webhook
    request sends nothing, whatever it carries. *)
Theorem missing_credentials_send_nothing rt r settings w :
  stripped_access_token settings = []
  \/ stripped_phone_number_id settings = [] ->
  adds (fun e => ~ is_post e) w (WhatsappBotEndpoint._invoke rt r settings w).2.
Proof.
  intros H.
  assert (Hc : can_reply_of settings = false).
  { unfold can_reply_of. destruct H as [-> | ->]; [reflexivity|].
    apply andb_false_r. }
  apply endpoint_preserves.
  - apply adds_refl.
  - apply adds_trans.
  - intros m w0.
    destruct (process_message_events rt (stripped_access_token settings)
                (stripped_phone_number_id settings) (_get_app_id (app settings))
                (can_reply_of settings) m w0) as (evs & Htr & Hev).
    exists evs. split; [exact Htr|].
    apply (Forall_impl _ _ _ Hev). intros e He.
    destruct e; cbn; try tauto. destruct He as [He _]. congruence.
Qed.

Lemma missing_credentials_send_nothing_witness :
  adds (fun e => ~ is_post e) empty_world
    (WhatsappBotEndpoint._invoke offline_runtime
       (post_request (Decodes one_text_message))
       {| access_token := Some (lit "  "); phone_number_id := Some (lit "1098765");
          app := AppString (lit "app-1"); verify_token := None |}
       empty_world).2.
Proof.
  apply (missing_credentials_send_nothing offline_runtime
           (post_request (Decodes one_text_message))
           {| access_token := Some (lit "  ");
              phone_number_id := Some (lit "1098765");
              app := AppString (lit "app-1"); verify_token := None |}
           empty_world (or_introl eq_refl)).
Defined.

Lemma process_message_no_app_storage rt access_token phone_number_id can_reply
    message w :
  storage (process_message rt access_token phone_number_id None can_reply
             message w).2 = storage w.
Proof.
  unfold process_message, mbind, M_bind, lift, app_reply.
  destruct (py_get message (lit "from")) as [sender|]; [|reflexivity].
  destruct (_extract_text message) as [text_body|]; [|reflexivity].
  destruct (negb (truthy sender) || is_none text_body); [reflexivity|].
  cbn. destruct (can_reply && truthy text_body); [|reflexivity].
  rewrite send_whatsapp_text_eq. reflexivity.
Qed.

(** X12: without a configured App, a webhook request neither reads nor
    writes the storage and invokes nothing: all it adds to the trace are
    sends, and the storage is as before. *)
Theorem no_app_only_sends rt r settings w :
  _get_app_id (app settings) = None ->
  adds is_post w (WhatsappBotEndpoint._invoke rt r settings w).2
  /\ storage (WhatsappBotEndpoint._invoke rt r settings w).2 = storage w.
Proof.
  intros Ha. split.
  - apply endpoint_preserves.
    + apply adds_refl.
    + apply adds_trans.
    + intros m w0.
      destruct (process_message_events rt (stripped_access_token settings)
                  (stripped_phone_number_id settings)
                  (_get_app_id (app settings))
                  (can_reply_of settings) m w0) as (evs & Htr & Hev).
      exists evs. split; [exact Htr|].
      apply (Forall_impl _ _ _ Hev). intros e He. rewrite Ha in He.
      destruct e; cbn; auto.
      * destruct He as (c & cs & s & E & _). discriminate.
      * destruct He as (c & cs & s & E & _). discriminate.
      * destruct He as (c & cs & s & q & i & E & _). discriminate.
  - apply (endpoint_preserves (fun w1 w2 => storage w2 = storage w1)).
    + reflexivity.
    + intros w1 w2 w3 H1 H2. congruence.
    + intros m w0. rewrite Ha. apply process_message_no_app_storage.
Qed.

Lemma no_app_only_sends_witness :
  adds is_post empty_world
    (WhatsappBotEndpoint._invoke offline_runtime
       (post_request (Decodes one_text_message)) valid_settings empty_world).2.
Proof.
  exact (proj1 (no_app_only_sends offline_runtime
                  (post_request (Decodes one_text_message)) valid_settings
                  empty_world eq_refl)).
Defined.

(** ** The walk, step by step *)

Lemma for_each_ext {A} (f g : A -> M unit) (xs : list A) :
  (forall x w, f x w = g x w) -> forall w, for_each xs f w = for_each xs g w.
Proof.
  intros H. induction xs as [|x xs IH]; intros w; [reflexivity|].
  cbn [for_each]. unfold mbind, M_bind. rewrite H.
  destruct (g x w) as [[[]|e] w1]; [apply IH | reflexivity].
Qed.

Lemma for_each_app {A} (xs ys : list A) (f : A -> M unit) w :
  for_each (xs ++ ys) f w = (for_each xs f ;; for_each ys f) w.
Proof.
  revert w. induction xs as [|x xs IH]; intros w; [reflexivity|].
  cbn [List.app for_each]. unfold mbind, M_bind in *.
  destruct (f x w) as [[[]|e] w1]; [apply IH | reflexivity].
Qed.

Lemma for_each_flat_map {A B} (h : A -> list B) (xs : list A)
    (f : B -> M unit) w :
  for_each (flat_map h xs) f w = for_each xs (fun x => for_each (h x) f) w.
Proof.
  revert w. induction xs as [|x xs IH]; intros w; [reflexivity|].
  cbn [flat_map for_each]. rewrite for_each_app. unfold mbind, M_bind.
  destruct (for_each (h x) f w) as [[[]|e] w1]; [apply IH | reflexivity].
Qed.

Lemma for_each_map {A B} (h : A -> B) (xs : list A) (f : B -> M unit) w :
  for_each (List.map h xs) f w = for_each xs (fun x => f (h x)) w.
Proof.
  revert w. induction xs as [|x xs IH]; intros w; [reflexivity|].
  cbn [List.map for_each]. unfold mbind, M_bind.
  destruct (f (h x) w) as [[[]|e] w1]; [apply IH | reflexivity].
Qed.

(** The walk is the run of its steps. *)
Lemma walk_steps rt access_token phone_number_id app_id can_reply payload w :
  walk rt access_token phone_number_id app_id can_reply payload w
  = for_each (steps payload)
      (step rt access_token phone_number_id app_id can_reply) w.
Proof.
  unfold walk, steps.
  set (es := py_get_default payload (lit "entry") (PList []) ≫= py_iter).
  unfold mbind at 1, M_bind at 1, lift at 1.
  destruct es as [entries|e]; [|reflexivity].
  rewrite for_each_flat_map. apply for_each_ext. clear w. intros entry w.
  unfold steps_of_entry.
  set (cs := py_get_default entry (lit "changes") (PList []) ≫= py_iter).
  unfold mbind at 1, M_bind at 1, lift at 1.
  destruct cs as [changes|e]; [|reflexivity].
  rewrite for_each_flat_map. apply for_each_ext. clear w. intros change w.
  unfold steps_of_change, mbind, M_bind, lift, result_bind.
  destruct (py_get change (lit "value")) as [value|e]; [|reflexivity].
  destruct (py_get (py_or value (PDict [])) (lit "messages")) as [messages|e];
    [|reflexivity].
  destruct (py_iter (py_or messages (PList []))) as [ms|e]; [|reflexivity].
  rewrite for_each_map. reflexivity.
Qed.

Lemma steps_not_mapping payload :
  (forall d, payload <> PDict d) -> steps payload = [inr AttributeError].
Proof. intros H. destruct payload; try reflexivity. destruct (H d eq_refl). Qed.

Lemma steps_without_entry d :
  has_key d (lit "entry") = false -> steps (PDict d) = [].
Proof.
  unfold has_key, steps, py_get_default.
  destruct (assoc d (lit "entry")); [discriminate | reflexivity].
Qed.

Lemma run_stopped rt access_token phone_number_id app_id can_reply e ss w :
  for_each (inr e :: ss) (step rt access_token phone_number_id app_id can_reply) w
  = (Raise e, w).
Proof. reflexivity. Qed.

(** The world after a webhook request is the world after the run of the
    request's steps. *)
Lemma handle_webhook_world rt r settings w :
  (_handle_webhook rt r settings w).2
  = (for_each (request_steps r)
       (step rt (stripped_access_token settings)
          (stripped_phone_number_id settings) (_get_app_id (app settings))
          (can_reply_of settings)) w).2.
Proof.
  unfold _handle_webhook, request_steps.
  destruct (get_json true r) as [parsed|e]; [|reflexivity].
  cbv zeta.
  fold (stripped_access_token settings) (stripped_phone_number_id settings).
  fold (can_reply_of settings).
  generalize (py_or parsed (PDict [])). intros payload.
  assert (Hother : (forall d, payload <> PDict d) ->
            (try_except
               (walk rt (stripped_access_token settings)
                  (stripped_phone_number_id settings)
                  (_get_app_id (app settings)) (can_reply_of settings)
                  payload ;; mret _ok)
               (fun _ => mret _ok) w).2 = w).
  { intros H. unfold try_except, mbind, M_bind.
    rewrite (walk_not_mapping _ _ _ _ _ _ _ H). reflexivity. }
  destruct payload as [|b|n|s|l|d].
  - reflexivity.
  - destruct b; reflexivity.
  - unfold truthy. destruct (n =? 0)%Z; reflexivity.
  - rewrite steps_not_mapping by discriminate. rewrite run_stopped. cbn [snd].
    destruct (truthy (PStr s)); [|reflexivity]. cbn [negb].
    unfold mbind at 1, M_bind at 1, lift at 1. cbn [str_in].
    destruct (contains (lit "entry") s); [|reflexivity]. cbn [negb].
    apply Hother. discriminate.
  - rewrite steps_not_mapping by discriminate. rewrite run_stopped. cbn [snd].
    destruct (truthy (PList l)); [|reflexivity]. cbn [negb].
    unfold mbind at 1, M_bind at 1, lift at 1. cbn [str_in].
    destruct (existsb _ l); [|reflexivity]. cbn [negb].
    apply Hother. discriminate.
  - destruct d as [|kv d]; [reflexivity|].
    change (truthy (PDict (kv :: d))) with true. cbn [negb].
    unfold mbind at 1, M_bind at 1, lift at 1. cbn [str_in].
    destruct (has_key (kv :: d) (lit "entry")) eqn:Hk; cbn [negb].
    + unfold try_except, mbind, M_bind. rewrite walk_steps.
      destruct (for_each _ _ w) as [[[]|e] w1]; reflexivity.
    + rewrite (steps_without_entry _ Hk). reflexivity.
Qed.

(** ** The answer to a POST *)

Lemma handle_webhook_answer rt r settings w :
  (_handle_webhook rt r settings w).1
  = match get_json true r with
    | Raise _ => Ok (text_response "Bad Request" 400)
    | Ok parsed => if true_scalar parsed then Raise TypeError else Ok _ok
    end.
Proof.
  destruct (get_json true r) as [parsed|e] eqn:E.
  2:{ unfold _handle_webhook. rewrite E. reflexivity. }
  destruct (true_scalar parsed) eqn:Hs.
  { rewrite (handle_webhook_true_scalar _ _ _ _ _ E Hs). reflexivity. }
  destruct (str_in (lit "entry") (py_or parsed (PDict []))) as [present|e] eqn:Hin.
  { exact (handle_webhook_acknowledges _ _ _ _ _ _ E Hin). }
  unfold _handle_webhook. rewrite E. revert Hin. unfold py_or.
  destruct (truthy parsed) eqn:Ht; [|reflexivity].
  destruct parsed; cbn in Ht, Hs; try discriminate; congruence.
Qed.

Lemma strippable_cases v :
  (strippable v = true
   /\ py_or v (PStr []) = PStr (default [] (as_string v)))
  \/ (strippable v = false
      /\ forall s, py_or v (PStr []) <> PStr s).
Proof.
  unfold strippable, py_or.
  destruct v as [|[|]|n|[|c s]|[|x l]|[|kv d]]; cbn;
    try (left; split; reflexivity);
    try (right; split; [reflexivity | discriminate]).
  destruct (n =? 0)%Z; cbn;
    [left; split; reflexivity | right; split; [reflexivity | discriminate]].
Qed.

Lemma get_or_empty_strip_typed d k :
  strippable (default PNone (assoc d k)) = true ->
  get_or_empty_strip d k
  = Ok (or_empty_strip (as_string (default PNone (assoc d k)))).
Proof.
  intros H. unfold get_or_empty_strip, or_empty_strip.
  destruct (strippable_cases (default PNone (assoc d k))) as [[_ ->]|[E _]];
    [reflexivity | congruence].
Qed.

Lemma get_or_empty_strip_raises d k :
  strippable (default PNone (assoc d k)) = false ->
  get_or_empty_strip d k = Raise AttributeError.
Proof.
  intros H. unfold get_or_empty_strip.
  destruct (strippable_cases (default PNone (assoc d k))) as [[E _]|[_ E]];
    [congruence|].
  destruct (py_or _ _) as [| | |s| |]; try reflexivity. destruct (E s eq_refl).
Qed.

Lemma or_chain_typed a i :
  strippable (py_or a i) = true ->
  default [] (as_string (py_or a i))
  = default [] (str_or (str_or (as_string a) (as_string i)) (Some [])).
Proof.
  assert (Hi : default [] (as_string i)
               = default [] (str_or (as_string i) (Some []))).
  { destruct i as [| | |[|c s]| |]; reflexivity. }
  unfold py_or at 1 2. destruct (truthy a) eqn:Ht.
  - unfold strippable, py_or. rewrite Ht.
    destruct a as [| | |[|c s]| |]; try discriminate;
      try (vm_compute in Ht; discriminate); reflexivity.
  - intros _.
    assert (Ha : str_or (as_string a) (as_string i) = as_string i).
    { destruct a as [| | |[|c s]| |]; try reflexivity.
      vm_compute in Ht. discriminate. }
    rewrite Ha. exact Hi.
Qed.

Lemma untyped_get_app_id_typed app_setting :
  selector_readable app_setting = true ->
  UntypedEndpoint._get_app_id app_setting
  = Ok (_get_app_id (typed_app app_setting)).
Proof.
  unfold selector_readable, UntypedEndpoint._get_app_id, typed_app.
  destruct app_setting as [|[|]|n|[|c s]|[|x l]|[|kv d]]; try reflexivity.
  - intros _. unfold truthy. destruct (n =? 0)%Z; reflexivity.
  - intros H. change (truthy (PDict (kv :: d))) with true. cbn [negb].
    revert H. generalize (field (kv :: d) "app_id") (field (kv :: d) "id").
    intros a i H. unfold _get_app_id, or_empty_strip.
    destruct (strippable_cases (py_or a i)) as [[_ E]|[E _]]; [|congruence].
    rewrite E, (or_chain_typed _ _ H). reflexivity.
Qed.

Lemma untyped_get_app_id_raises app_setting :
  selector_readable app_setting = false ->
  UntypedEndpoint._get_app_id app_setting = Raise AttributeError.
Proof.
  unfold selector_readable, UntypedEndpoint._get_app_id.
  destruct app_setting as [| | | | |d]; try discriminate.
  intros H.
  assert (Ht : truthy (PDict d) = true).
  { destruct d; [discriminate H | reflexivity]. }
  rewrite Ht. cbn [negb].
  destruct (strippable_cases (py_or (field d "app_id") (field d "id")))
    as [[E _]|[_ E]]; [congruence|].
  destruct (py_or (py_or _ _) _) as [| | |s| |]; try reflexivity.
  destruct (E s eq_refl).
Qed.

(** On settings of the declared types the untyped reading is the typed
    one. *)
Lemma untyped_handler_typed rt r settings w :
  settings_readable settings = true ->
  UntypedEndpoint._handle_webhook rt r settings w
  = _handle_webhook rt r (typed_settings settings) w.
Proof.
  unfold settings_readable. intros H.
  apply andb_prop in H as [H Hs]. apply andb_prop in H as [Ha Hp].
  unfold UntypedEndpoint._handle_webhook, _handle_webhook.
  destruct (get_json true r) as [parsed|e]; [|reflexivity]. cbv zeta.
  unfold field in Ha, Hp.
  rewrite (get_or_empty_strip_typed _ _ Ha), (get_or_empty_strip_typed _ _ Hp).
  rewrite (untyped_get_app_id_typed _ Hs).
  reflexivity.
Qed.

Lemma untyped_handler_raises rt r settings w parsed :
  settings_readable settings = false ->
  get_json true r = Ok parsed ->
  UntypedEndpoint._handle_webhook rt r settings w = (Raise AttributeError, w).
Proof.
  unfold settings_readable, UntypedEndpoint._handle_webhook. intros H ->.
  cbv zeta. unfold field in H.
  destruct (strippable (default PNone (assoc settings (lit "access_token"))))
    eqn:Ha.
  2:{ rewrite (get_or_empty_strip_raises _ _ Ha). reflexivity. }
  rewrite (get_or_empty_strip_typed _ _ Ha).
  destruct (strippable (default PNone (assoc settings (lit "phone_number_id"))))
    eqn:Hp.
  2:{ rewrite (get_or_empty_strip_raises _ _ Hp). reflexivity. }
  rewrite (get_or_empty_strip_typed _ _ Hp).
  cbn [andb] in H. fold (field settings "app") in H.
  rewrite (untyped_get_app_id_raises _ H). reflexivity.
Qed.

(** X13: the answer to a webhook POST, by cases.  It is 400 "Bad Request"
    exactly when [get_json] raises, that is when reading a JSON body
    fails.  Otherwise lines 144-146, which no [try] guards, raise
    [AttributeError] when [access_token], [phone_number_id] or the App
    selector's id is a true value that is no string.  Otherwise line 148
    raises [TypeError] exactly when the payload is a true scalar.  In
    every other case the answer is 200 "ok", whatever the payload holds
    and whatever the storage, the App and the Graph API do. *)
Theorem post_answer_by_cases rt r settings w :
  (UntypedEndpoint._handle_webhook rt r settings w).1
  = match get_json true r with
    | Raise _ => Ok (text_response "Bad Request" 400)
    | Ok parsed =>
        if negb (settings_readable settings) then Raise AttributeError
        else if true_scalar parsed then Raise TypeError
        else Ok _ok
    end.
Proof.
  destruct (settings_readable settings) eqn:H; cbn [negb].
  - rewrite (untyped_handler_typed _ _ _ _ H). apply handle_webhook_answer.
  - destruct (get_json true r) as [parsed|e] eqn:E.
    + rewrite (untyped_handler_raises _ _ _ _ _ H E). reflexivity.
    + unfold UntypedEndpoint._handle_webhook. rewrite E. reflexivity.
Qed.

(** ** Messages that stop the walk *)

Lemma process_message_malformed rt access_token phone_number_id app_id can_reply
    message w :
  malformed message = true ->
  process_message rt access_token phone_number_id app_id can_reply message w
  = (Raise AttributeError, w).
Proof.
  intros H. unfold process_message, mbind at 1, M_bind at 1, lift at 1.
  destruct message as [| | | | |d]; try reflexivity.
  cbn [py_get]. unfold mbind at 1, M_bind at 1, lift at 1, _extract_text.
  cbn [py_get mbind result_bind]. cbn [malformed] in H. unfold field in H.
  apply andb_prop in H as [H Hm]. apply andb_prop in H as [Hty Ht].
  rewrite Hty. rewrite (py_or_true _ _ Ht).
  destruct (default PNone (assoc d (lit "text"))); try discriminate; reflexivity.
Qed.

Lemma for_each_stops {A} (body : A -> M unit) bad e (before rest : list A) w :
  (forall w0, body bad w0 = (Raise e, w0)) ->
  (for_each (before ++ bad :: rest) body w).2 = (for_each before body w).2.
Proof.
  intros H. revert w. induction before as [|x xs IH]; intros w.
  - cbn [List.app for_each]. unfold mbind, M_bind. rewrite H. reflexivity.
  - cbn [List.app for_each]. unfold mbind, M_bind.
    destruct (body x w) as [[[]|e0] w1]; [apply IH | reflexivity].
Qed.

Lemma steps_with_message_answer rt r settings w before message rest :
  request_steps r = before ++ inl message :: rest ->
  (_handle_webhook rt r settings w).1 = Ok _ok.
Proof.
  intros H. rewrite handle_webhook_answer. revert H. unfold request_steps.
  destruct (get_json true r) as [parsed|e].
  2:{ destruct before; discriminate. }
  destruct (true_scalar parsed) eqn:Hs; [|reflexivity].
  assert (Hp : steps (py_or parsed (PDict [])) = [inr AttributeError]).
  { destruct parsed as [|[|]|n| | |]; try discriminate; try reflexivity.
    cbn in Hs. unfold py_or, truthy. rewrite Hs. reflexivity. }
  rewrite Hp. destruct before as [|s [|s' before]]; discriminate.
Qed.

(** X14: a message that is not a mapping, or a text message whose [text]
    is a true value other than a mapping, ends the handling of the whole
    request.  Whatever follows it in the order of the walk (in the same
    change, in later changes, in later entries) is dropped: the world
    after the request is the world that the messages before it produce,
    and the answer is still 200 "ok". *)
Theorem malformed_message_drops_the_rest rt r settings w before bad rest :
  request_steps r = List.map inl before ++ inl bad :: rest ->
  malformed bad = true ->
  (_handle_webhook rt r settings w).1 = Ok _ok
  /\ (_handle_webhook rt r settings w).2
     = (for_each before
          (process_message rt (stripped_access_token settings)
             (stripped_phone_number_id settings) (_get_app_id (app settings))
             (can_reply_of settings)) w).2.
Proof.
  intros Hr Hb. split; [exact (steps_with_message_answer _ _ _ _ _ _ _ Hr)|].
  rewrite handle_webhook_world, Hr.
  rewrite (for_each_stops _ (inl bad) AttributeError).
  - rewrite for_each_map. reflexivity.
  - intros w0. apply process_message_malformed, Hb.
Qed.

Lemma malformed_message_drops_the_rest_witness :
  (_handle_webhook offline_runtime
     (post_request (Decodes delivery_with_bad_message)) valid_settings
     empty_world).1 = Ok _ok
  /\ (_handle_webhook offline_runtime
        (post_request (Decodes delivery_with_bad_message)) valid_settings
        empty_world).2
     = (for_each [text_message "1555" "hi"]
          (process_message offline_runtime (stripped_access_token valid_settings)
             (stripped_phone_number_id valid_settings)
             (_get_app_id (app valid_settings)) (can_reply_of valid_settings))
          empty_world).2.
Proof.
  apply (malformed_message_drops_the_rest offline_runtime
           (post_request (Decodes delivery_with_bad_message)) valid_settings
           empty_world [text_message "1555" "hi"] (PStr (lit "oops"))
           [inl (text_message "1556" "hello"); inl (text_message "1557" "hey");
            inl (text_message "1558" "ciao")]);
    reflexivity.
Defined.

Lemma run_non_text rt access_token phone_number_id app_id can_reply ss :
  Forall (fun m => exists d, m = PDict d
                     /\ eq_str (field d "type") (lit "text") = false)
    (messages_of ss) ->
  forall w,
    (for_each ss (step rt access_token phone_number_id app_id can_reply) w).2 = w.
Proof.
  induction ss as [|[m|e] ss IH]; intros H w; [reflexivity| |reflexivity].
  cbn [messages_of flat_map List.app] in H.
  apply Forall_cons_1 in H as [(d & -> & Hd) H].
  cbn [for_each step]. unfold mbind, M_bind.
  rewrite (non_text_message_skipped _ _ _ _ _ _ _ Hd). apply IH, H.
Qed.

(** X15: messages whose type is not "text" (images, audio, reactions,
    ...) get no reply, not even an echo: a request all of whose messages,
    over all its entries and changes, are such leaves the storage and the
    trace of calls as they were. *)
Theorem non_text_messages_are_ignored rt r settings w :
  Forall (fun m => exists d, m = PDict d
                     /\ eq_str (field d "type") (lit "text") = false)
    (request_messages r) ->
  (_handle_webhook rt r settings w).2 = w.
Proof.
  intros H. rewrite handle_webhook_world. apply run_non_text, H.
Qed.

Lemma non_text_messages_are_ignored_witness :
  (_handle_webhook (answering_runtime (PDict answer_with_id))
     (post_request (Decodes delivery_of_images))
     {| access_token := Some (lit "EAAG-token");
        phone_number_id := Some (lit "1098765");
        app := AppString (lit "app-1"); verify_token := None |}
     empty_world).2
  = empty_world.
Proof.
  apply (non_text_messages_are_ignored (answering_runtime (PDict answer_with_id))
           (post_request (Decodes delivery_of_images))
           {| access_token := Some (lit "EAAG-token");
              phone_number_id := Some (lit "1098765");
              app := AppString (lit "app-1"); verify_token := None |}
           empty_world).
  repeat constructor; eexists; (split; [reflexivity | reflexivity]).
Defined.

(** ** The calls of a request, message by message *)

Lemma count_app p evs1 evs2 :
  count p (evs1 ++ evs2) = (count p evs1 + count p evs2)%nat.
Proof. unfold count. rewrite List.filter_app. apply length_app. Qed.

Lemma process_message_calls rt access_token phone_number_id app_id can_reply
    message w :
  exists evs,
    trace (process_message rt access_token phone_number_id app_id can_reply
             message w).2 = trace w ++ evs
    /\ message_calls rt access_token phone_number_id app_id can_reply message evs.
Proof.
  assert (Hnone : exists evs,
            trace w = trace w ++ evs
            /\ message_calls rt access_token phone_number_id app_id can_reply
                 message evs).
  { exists []. rewrite app_nil_r. split; [reflexivity|].
    split; [cbn; lia|]. split; [cbn; lia | constructor]. }
  destruct (py_get message (lit "from")) as [sender|e] eqn:Hf.
  2:{ unfold process_message, mbind, M_bind, lift. rewrite Hf. exact Hnone. }
  destruct (_extract_text message) as [text_body|e] eqn:Hx.
  2:{ unfold process_message, mbind, M_bind, lift. rewrite Hf, Hx. exact Hnone. }
  destruct (negb (truthy sender) || is_none text_body) eqn:Hskip.
  { unfold process_message, mbind, M_bind, lift. rewrite Hf, Hx, Hskip.
    exact Hnone. }
  clear Hnone.
  apply orb_false_elim in Hskip as [Hs Hn]. apply negb_false_iff in Hs.
  set (key := conversation_key rt phone_number_id sender).
  set (inputs := identify_inputs phone_number_id sender).
  set (Q := message_event rt access_token phone_number_id app_id can_reply
              message).
  assert (HQ : forall e,
            match e with
            | HttpPost req =>
                can_reply = true
                /\ exists body,
                     truthy body = true
                     /\ (body = text_body
                         \/ exists c cs conversation_id d,
                              app_id = Some (c :: cs)
                              /\ chat_invoke rt
                                   (invoke_params (c :: cs) text_body inputs
                                      conversation_id) = Ok (PDict d)
                              /\ body = PStr (py_str rt
                                               (py_or (py_or (field d "answer")
                                                         (field d "output_text"))
                                                      (field d "message"))))
                     /\ req = whatsapp_request access_token phone_number_id
                                sender body 10
            | StorageGet k | StorageSet k _ =>
                exists c cs, app_id = Some (c :: cs) /\ k = key
            | AppInvoke params =>
                exists c cs conversation_id,
                  app_id = Some (c :: cs)
                  /\ params = invoke_params (c :: cs) text_body inputs
                                conversation_id
            end -> Q e).
  { intros e He. exists sender, text_body. auto. }
  assert (Hb : exists reply w1 evs,
             app_reply rt phone_number_id app_id sender text_body w
             = (Ok reply, w1)
             /\ trace w1 = trace w ++ evs
             /\ count is_send evs = 0%nat
             /\ (count is_invocation evs <= 1)%nat
             /\ Forall Q evs
             /\ (forall c0 cs0, reply = Some (c0 :: cs0) ->
                   exists c cs conversation_id d,
                     app_id = Some (c :: cs)
                     /\ chat_invoke rt
                          (invoke_params (c :: cs) text_body inputs
                             conversation_id) = Ok (PDict d)
                     /\ c0 :: cs0
                        = py_str rt (py_or (py_or (field d "answer")
                                              (field d "output_text"))
                                           (field d "message")))).
  { unfold app_reply. fold key inputs. destruct app_id as [[|c cs]|] eqn:Ha.
    1,3: exists None, w, []; rewrite app_nil_r; cbn;
         (split; [reflexivity|]); (split; [reflexivity|]);
         (split; [reflexivity|]); (split; [lia|]);
         (split; [constructor | discriminate]).
    assert (Hg : Q (StorageGet key)) by (apply HQ; exists c, cs; auto).
    assert (Hw : forall b, Q (StorageSet key b))
      by (intros b; apply HQ; exists c, cs; auto).
    assert (Hi : Q (AppInvoke (bridge_request rt (c :: cs) text_body inputs
                                 key w)))
      by (apply HQ; do 3 eexists; split; reflexivity).
    assert (Hun : (forall d, chat_invoke rt (bridge_request rt (c :: cs)
                                               text_body inputs key w)
                             <> Ok (PDict d)) ->
              exists reply w1 evs,
                _invoke_app_reply rt (c :: cs) text_body inputs key w
                = (Ok reply, w1)
                /\ trace w1 = trace w ++ evs
                /\ count is_send evs = 0%nat
                /\ (count is_invocation evs <= 1)%nat
                /\ Forall Q evs
                /\ (forall c0 cs0, reply = Some (c0 :: cs0) ->
                      exists c' cs' conversation_id d,
                        Some (c :: cs) = Some (c' :: cs')
                        /\ chat_invoke rt
                             (invoke_params (c' :: cs') text_body inputs
                                conversation_id) = Ok (PDict d)
                        /\ c0 :: cs0
                           = py_str rt (py_or (py_or (field d "answer")
                                                 (field d "output_text"))
                                              (field d "message")))).
    { intros H. rewrite (invoke_app_reply_unanswered _ _ _ _ _ _ H).
      do 3 eexists. split; [reflexivity|]. cbn [log trace].
      rewrite <- app_assoc. split; [reflexivity|]. cbn.
      split; [reflexivity|]. split; [lia|]. split; [|discriminate].
      constructor; [exact Hg|]. constructor; [exact Hi | constructor]. }
    destruct (chat_invoke rt (bridge_request rt (c :: cs) text_body inputs key w))
      as [[| | | | |d]|e] eqn:E;
      try (apply Hun; intros d'; discriminate).
    rewrite (invoke_app_reply_answered _ _ _ _ _ _ _ E).
    assert (Hans : forall c0 cs0,
               (let answer := py_or (py_or (field d "answer")
                                       (field d "output_text"))
                                    (field d "message") in
                if is_none answer then None else Some (py_str rt answer))
               = Some (c0 :: cs0) ->
               exists c' cs' conversation_id d',
                 Some (c :: cs) = Some (c' :: cs')
                 /\ chat_invoke rt
                      (invoke_params (c' :: cs') text_body inputs
                         conversation_id) = Ok (PDict d')
                 /\ c0 :: cs0
                    = py_str rt (py_or (py_or (field d' "answer")
                                          (field d' "output_text"))
                                       (field d' "message"))).
    { intros c0 cs0. cbv zeta.
      destruct (is_none (py_or (py_or (field d "answer") (field d "output_text"))
                               (field d "message"))); [discriminate|].
      intros [= Hr]. exists c, cs, (stored_conversation_id rt key w), d.
      split; [reflexivity|]. split; [exact E | symmetry; exact Hr]. }
    destruct (persist_trace rt key (field d "conversation_id")
                (log (AppInvoke (bridge_request rt (c :: cs) text_body inputs
                                   key w))
                   (log (StorageGet key) w))) as [Hp|[b Hp]];
      do 3 eexists; (split; [reflexivity|]); rewrite Hp; cbn [log trace];
      rewrite <- !app_assoc; (split; [reflexivity|]); cbn;
      (split; [reflexivity|]); (split; [lia|]); (split; [|exact Hans]).
    - constructor; [exact Hg|]. constructor; [exact Hi | constructor].
    - constructor; [exact Hg|]. constructor; [exact Hi|].
      constructor; [apply Hw | constructor]. }
  destruct Hb as (reply & w1 & evs & Hr & Htr & Hsn & Hin & Hev & Hans).
  rewrite (process_message_text _ _ _ _ _ _ _ _ _ _ _ Hf Hx Hs Hn Hr). cbn [snd].
  destruct (can_reply && truthy (choose_reply reply text_body)) eqn:Hsend.
  - apply andb_prop in Hsend as [Hc Ht].
    eexists (evs ++ [_]). cbn [log trace]. rewrite Htr, <- app_assoc.
    split; [reflexivity|]. unfold message_calls. rewrite !count_app.
    split; [cbn; lia|]. split; [cbn; lia|].
    apply Forall_app. split; [exact Hev|]. constructor; [|constructor].
    apply HQ. split; [exact Hc|].
    exists (choose_reply reply text_body). split; [exact Ht|].
    split; [|reflexivity].
    destruct reply as [[|c0 cs0]|]; [left; reflexivity | | left; reflexivity].
    right. destruct (Hans c0 cs0 eq_refl) as (c & cs & conv & d & Ha & Hi & Hb).
    exists c, cs, conv, d. split; [exact Ha|]. split; [exact Hi|].
    cbn [choose_reply]. rewrite Hb. reflexivity.
  - exists evs. split; [exact Htr|]. split; [lia|]. split; [lia | exact Hev].
Qed.

Lemma run_blocks rt access_token phone_number_id app_id can_reply ss :
  forall w, exists handled rest blocks,
    messages_of ss = handled ++ rest
    /\ trace (for_each ss
                (step rt access_token phone_number_id app_id can_reply) w).2
       = trace w ++ concat blocks
    /\ Forall2 (message_calls rt access_token phone_number_id app_id can_reply)
         handled blocks.
Proof.
  induction ss as [|[m|e] ss IH]; intros w.
  - exists [], [], []. cbn. rewrite app_nil_r.
    split; [reflexivity|]. split; [reflexivity | constructor].
  - destruct (process_message_calls rt access_token phone_number_id app_id
                can_reply m w) as (evs & Ht & Hc).
    cbn [for_each step messages_of flat_map]. unfold mbind, M_bind.
    destruct (process_message rt access_token phone_number_id app_id can_reply
                m w) as [[[]|e] w1]; cbn [snd] in Ht.
    + destruct (IH w1) as (handled & rest & blocks & Hm & Hb & Hf).
      exists (m :: handled), rest, (evs :: blocks).
      split; [cbn; f_equal; exact Hm|]. split.
      * rewrite Hb, Ht. cbn [concat]. rewrite app_assoc. reflexivity.
      * constructor; assumption.
    + exists [m], (messages_of ss), [evs].
      split; [reflexivity|]. split.
      * cbn [snd concat]. rewrite Ht, app_nil_r. reflexivity.
      * constructor; [exact Hc | constructor].
  - exists [], (messages_of (inr e :: ss)), [].
    split; [reflexivity|]. split; [|constructor].
    rewrite run_stopped. cbn. rewrite app_nil_r. reflexivity.
Qed.

(** X16: a webhook request answers and forwards each message at most
    once.  The calls it adds to the trace split into blocks, one for each
    message handled, in the order of the payload (the handled messages
    are a prefix of the request's messages, over all its entries and
    changes); the block of a message holds at most one send and at most
    one App invocation, and every call in it is made for that message: to
    its sender, with its text, under its conversation key. *)
Theorem one_reply_per_message_at_most rt r settings w :
  exists handled rest blocks,
    request_messages r = handled ++ rest
    /\ trace (_handle_webhook rt r settings w).2 = trace w ++ concat blocks
    /\ Forall2 (message_calls rt (stripped_access_token settings)
                  (stripped_phone_number_id settings)
                  (_get_app_id (app settings)) (can_reply_of settings))
         handled blocks.
Proof.
  rewrite handle_webhook_world. unfold request_messages.
  apply run_blocks.
Qed.

Lemma blocks_events rt access_token phone_number_id app_id can_reply messages
    handled blocks :
  (forall m, In m handled -> In m messages) ->
  Forall2 (message_calls rt access_token phone_number_id app_id can_reply)
    handled blocks ->
  Forall (request_event rt access_token phone_number_id app_id can_reply messages)
    (concat blocks).
Proof.
  intros Hin H. induction H as [|m evs handled blocks Hc _ IH]; [constructor|].
  cbn [concat]. apply Forall_app. split.
  - destruct Hc as (_ & _ & Hev). apply (Forall_impl _ _ _ Hev).
    intros e He. exists m. split; [apply Hin; left; reflexivity | exact He].
  - apply IH. intros m' Hm'. apply Hin. right. exact Hm'.
Qed.

(** X10: every call that handling a request adds to the trace is made for
    one of the messages that the request carries: a send goes to the
    [from] of such a message, through the configured number and with the
    10 seconds timeout, and carries that message's text or an answer of
    the configured App; a read or a write of the storage is under the
    conversation key of such a message's sender; an invocation is of the
    configured App, with such a message's text and its sender's
    identification. *)
Theorem webhook_calls_are_its_own rt r settings w :
  adds (request_event rt (stripped_access_token settings)
          (stripped_phone_number_id settings) (_get_app_id (app settings))
          (can_reply_of settings) (request_messages r))
    w (WhatsappBotEndpoint._invoke rt r settings w).2.
Proof.
  unfold WhatsappBotEndpoint._invoke.
  destruct (bool_decide (method r = lit "GET")); [apply adds_refl|].
  destruct (negb (bool_decide (method r = lit "POST"))); [apply adds_refl|].
  rewrite handle_webhook_world.
  destruct (run_blocks rt (stripped_access_token settings)
              (stripped_phone_number_id settings) (_get_app_id (app settings))
              (can_reply_of settings) (request_steps r) w)
    as (handled & rest & blocks & Hm & Ht & Hf).
  exists (concat blocks). split; [exact Ht|]. unfold request_messages.
  apply (blocks_events _ _ _ _ _ _ handled); [|exact Hf].
  intros m Hin. rewrite Hm. apply in_or_app. left. exact Hin.
Qed.

(** ** The direct send, once its inputs are present *)

Lemma inputs_present_true credentials tool_parameters :
  inputs_present credentials tool_parameters = true ->
  nonempty (or_empty_strip (cred_access_token credentials)) = true
  /\ nonempty (or_empty_strip (cred_phone_number_id credentials)) = true
  /\ nonempty (or_empty_strip (to tool_parameters)) = true
  /\ nonempty (or_empty_strip (text_param tool_parameters)) = true.
Proof.
  unfold inputs_present. intros H.
  apply andb_prop in H as [H H4]. apply andb_prop in H as [H H3].
  apply andb_prop in H as [H1 H2]. auto.
Qed.

Lemma direct_send_eq rt credentials tool_parameters w :
  inputs_present credentials tool_parameters = true ->
  SendMessageTool._invoke rt credentials tool_parameters w
  = (Ok (request_log credentials tool_parameters
         :: match requests_post rt (direct_request credentials tool_parameters) with
            | Ok resp => after_response rt (recipient tool_parameters) resp
            | Raise e => exception_messages rt e
            end),
     log (HttpPost (direct_request credentials tool_parameters)) w).
Proof.
  intros H. apply inputs_present_true in H as (H1 & H2 & H3 & H4).
  unfold SendMessageTool._invoke. rewrite H1, H2, H3, H4. cbn [negb orb].
  unfold try_except, mbind, M_bind, http_post.
  fold (recipient tool_parameters).
  fold (direct_request credentials tool_parameters).
  fold (request_log credentials tool_parameters).
  destruct (requests_post rt (direct_request credentials tool_parameters));
    reflexivity.
Qed.

Lemma direct_send_missing rt credentials tool_parameters w :
  inputs_present credentials tool_parameters = false ->
  exists details message,
    SendMessageTool._invoke rt credentials tool_parameters w
    = (Ok [ LogMessage (if nonempty (or_empty_strip (cred_access_token credentials))
                           && nonempty (or_empty_strip
                                          (cred_phone_number_id credentials))
                        then lit "parameters" else lit "credentials")
              details (Some ERROR);
            TextMessage message ], w).
Proof.
  unfold inputs_present, SendMessageTool._invoke. intros H.
  destruct (nonempty (or_empty_strip (cred_access_token credentials)));
    [|do 2 eexists; reflexivity].
  destruct (nonempty (or_empty_strip (cred_phone_number_id credentials)));
    [|do 2 eexists; reflexivity].
  cbn [negb orb andb] in *.
  destruct (nonempty (or_empty_strip (to tool_parameters)));
    [|do 2 eexists; reflexivity].
  cbn [andb] in H. rewrite H. do 2 eexists; reflexivity.
Qed.

Lemma exception_messages_final rt e :
  forall before, exists m,
    final_message (before ++ exception_messages rt e) = Some m
    /\ is_output m = true.
Proof.
  intros before. unfold final_message, exception_messages.
  rewrite rev_app_distr. eexists. split; reflexivity.
Qed.

Lemma after_response_final rt to resp :
  exists m, final_message (after_response rt to resp) = Some m
            /\ is_output m = true.
Proof.
  unfold after_response.
  destruct ((200 <=? status_code resp)%Z && (status_code resp <? 300)%Z).
  { eexists. split; reflexivity. }
  destruct (extract_api_error (safe_json resp)) as [[ae|]|e].
  - destruct (truthy ae); [destruct (suggest_fix ae)|].
    + eexists. split; reflexivity.
    + apply (exception_messages_final rt e [_]).
    + eexists. split; reflexivity.
  - eexists. split; reflexivity.
  - apply (exception_messages_final rt e [_]).
Qed.

Lemma direct_send_contained rt credentials tool_parameters w :
  exists messages,
    SendMessageTool._invoke rt credentials tool_parameters w
    = (Ok messages,
       if inputs_present credentials tool_parameters
       then log (HttpPost (direct_request credentials tool_parameters)) w
       else w)
    /\ (exists m, final_message messages = Some m /\ is_output m = true).
Proof.
  destruct (inputs_present credentials tool_parameters) eqn:H.
  - rewrite (direct_send_eq _ _ _ _ H). eexists. split; [reflexivity|].
    destruct (requests_post rt (direct_request credentials tool_parameters))
      as [resp|e].
    + destruct (after_response_final rt (recipient tool_parameters) resp)
        as (m & Hm & Ho).
      exists m. split; [|exact Ho]. unfold final_message in *.
      cbn [rev]. destruct (rev (after_response _ _ _)); [discriminate|exact Hm].
    + apply (exception_messages_final rt e [_]).
  - destruct (direct_send_missing rt _ _ w H) as (details & message & ->).
    eexists. split; [reflexivity|]. eexists. split; reflexivity.
Qed.

(** On inputs of the declared types the untyped reading of the tool is
    the typed one. *)
Lemma untyped_tool_typed rt credentials tool_parameters w :
  inputs_readable credentials tool_parameters = true ->
  UntypedTool._invoke rt credentials tool_parameters w
  = SendMessageTool._invoke rt (typed_credentials credentials)
      (typed_parameters tool_parameters) w.
Proof.
  unfold inputs_readable, field. intros H.
  apply andb_prop in H as [H Hx]. apply andb_prop in H as [H Ht].
  apply andb_prop in H as [Ha Hp].
  unfold UntypedTool._invoke.
  rewrite (get_or_empty_strip_typed _ _ Ha), (get_or_empty_strip_typed _ _ Hp),
    (get_or_empty_strip_typed _ _ Ht), (get_or_empty_strip_typed _ _ Hx).
  reflexivity.
Qed.

Lemma untyped_tool_raises rt credentials tool_parameters w :
  inputs_readable credentials tool_parameters = false ->
  UntypedTool._invoke rt credentials tool_parameters w
  = (Raise AttributeError, w).
Proof.
  unfold inputs_readable, field, UntypedTool._invoke. intros H.
  destruct (strippable (default PNone (assoc credentials (lit "access_token"))))
    eqn:Ha.
  2:{ rewrite (get_or_empty_strip_raises _ _ Ha). reflexivity. }
  rewrite (get_or_empty_strip_typed _ _ Ha).
  destruct (strippable (default PNone (assoc credentials (lit "phone_number_id"))))
    eqn:Hp.
  2:{ rewrite (get_or_empty_strip_raises _ _ Hp). reflexivity. }
  rewrite (get_or_empty_strip_typed _ _ Hp).
  destruct (strippable (default PNone (assoc tool_parameters (lit "to")))) eqn:Ht.
  2:{ rewrite (get_or_empty_strip_raises _ _ Ht). reflexivity. }
  rewrite (get_or_empty_strip_typed _ _ Ht).
  cbn [andb] in H. rewrite (get_or_empty_strip_raises _ _ H). reflexivity.
Qed.

(** X17: what the tool does, for any credentials and parameters.  When one
    of the four inputs is a true value that is no string, lines 12-16,
    which no [try] guards, raise [AttributeError] before anything is
    yielded or posted.  In every other case the tool does not raise,
    whatever the platform does: it posts exactly when the four inputs are
    non-empty once stripped, and then exactly once (to the configured
    number, with the digits of [to], the stripped text and the 20 seconds
    timeout); it leaves the storage alone; and what it yields ends with a
    text or JSON output. *)
Theorem direct_send_is_contained rt credentials tool_parameters w :
  if inputs_readable credentials tool_parameters then
    exists messages,
      UntypedTool._invoke rt credentials tool_parameters w
      = (Ok messages,
         if inputs_present (typed_credentials credentials)
              (typed_parameters tool_parameters)
         then log (HttpPost (direct_request (typed_credentials credentials)
                               (typed_parameters tool_parameters))) w
         else w)
      /\ (exists m, final_message messages = Some m /\ is_output m = true)
  else
    UntypedTool._invoke rt credentials tool_parameters w
    = (Raise AttributeError, w).
Proof.
  destruct (inputs_readable credentials tool_parameters) eqn:H.
  - rewrite (untyped_tool_typed _ _ _ _ H). apply direct_send_contained.
  - apply untyped_tool_raises, H.
Qed.

Lemma summary_prefix rt to body :
  exists suffix,
    summary rt to body = lit "sent to " ++ to ++ suffix
    /\ (suffix = []
        \/ exists id, wa_message_id body = Ok id /\ truthy id = true
                      /\ suffix = lit " (id: " ++ py_str rt id ++ lit ")").
Proof.
  unfold summary. destruct (wa_message_id body) as [id|e].
  - destruct (truthy id) eqn:Ht.
    + eexists. split; [reflexivity|]. right. exists id. auto.
    + exists []. split; [reflexivity | auto].
  - exists []. rewrite app_nil_r. auto.
Qed.

(** X18: a send that the platform answers with a 2xx status is always
    reported as sent, whatever the body of the answer is (JSON or not, of
    any shape): the tool yields the request log, the SUCCESS response
    log, the JSON result with the digits-only recipient and the body, and
    a final text "sent to <recipient>", followed by the message id only
    when the body carries a true one. *)
Theorem accepted_send_is_reported rt credentials tool_parameters w resp :
  inputs_present credentials tool_parameters = true ->
  requests_post rt (direct_request credentials tool_parameters) = Ok resp ->
  accepted resp = true ->
  exists suffix,
    (SendMessageTool._invoke rt credentials tool_parameters w).1
    = Ok [ request_log credentials tool_parameters;
           LogMessage (lit "send_response")
             (PDict [ (lit "status_code", PInt (status_code resp));
                      (lit "body", safe_json resp) ]) (Some SUCCESS);
           JsonMessage (PDict [ (lit "result", PStr (lit "sent"));
                                (lit "to", PStr (recipient tool_parameters));
                                (lit "response", safe_json resp) ]);
           TextMessage (lit "sent to " ++ recipient tool_parameters ++ suffix) ]
    /\ (suffix = []
        \/ exists id, wa_message_id (safe_json resp) = Ok id
                      /\ truthy id = true
                      /\ suffix = lit " (id: " ++ py_str rt id ++ lit ")").
Proof.
  intros H Hr Ha. rewrite (direct_send_eq _ _ _ _ H), Hr. cbn [fst].
  unfold after_response. unfold accepted in Ha. rewrite Ha.
  destruct (summary_prefix rt (recipient tool_parameters) (safe_json resp))
    as (suffix & -> & Hs).
  exists suffix. split; [reflexivity | exact Hs].
Qed.

Lemma accepted_send_is_reported_witness :
  exists suffix,
    (SendMessageTool._invoke accepting_runtime valid_credentials send_hello
       empty_world).1
    = Ok [ request_log valid_credentials send_hello;
           LogMessage (lit "send_response")
             (PDict [ (lit "status_code", PInt 200);
                      (lit "body",
                       PDict [ (lit "messages",
                                PList [ PDict [ (lit "id",
                                                 PStr (lit "wamid.X")) ] ]) ]) ])
             (Some SUCCESS);
           JsonMessage (PDict [ (lit "result", PStr (lit "sent"));
                                (lit "to", PStr (lit "15550100"));
                                (lit "response",
                                 PDict [ (lit "messages",
                                          PList [ PDict [ (lit "id",
                                                   PStr (lit "wamid.X")) ] ]) ]) ]);
           TextMessage (lit "sent to " ++ lit "15550100" ++ suffix) ].
Proof.
  destruct (accepted_send_is_reported accepting_runtime valid_credentials
              send_hello empty_world
              {| status_code := 200;
                 json_body :=
                   Some (PDict [ (lit "messages",
                                  PList [ PDict [ (lit "id",
                                                   PStr (lit "wamid.X")) ] ]) ]);
                 text := [] |}
              eq_refl eq_refl eq_refl) as (suffix & E & _).
  exists suffix. exact E.
Defined.

(** ** Refusals *)

Lemma refused_send_eq rt credentials tool_parameters w resp :
  inputs_present credentials tool_parameters = true ->
  requests_post rt (direct_request credentials tool_parameters) = Ok resp ->
  accepted resp = false ->
  (SendMessageTool._invoke rt credentials tool_parameters w).1
  = Ok (request_log credentials tool_parameters
        :: match extract_api_error (safe_json resp) with
           | Raise e => response_log resp :: exception_messages rt e
           | Ok (Some api_error) =>
               match suggest_fix api_error with
               | Ok hint =>
                   [ response_log resp;
                     JsonMessage (PDict [ (lit "error", api_error);
                                          (lit "hint", PStr hint) ]) ]
               | Raise e => response_log resp :: exception_messages rt e
               end
           | Ok None =>
               [ response_log resp;
                 TextMessage (lit "Failed to send message: HTTP "
                              ++ str_int (status_code resp)) ]
           end).
Proof.
  intros H Hr Ha. rewrite (direct_send_eq _ _ _ _ H), Hr. cbn [fst].
  unfold after_response, response_log. unfold accepted in *. rewrite Ha.
  destruct (extract_api_error (safe_json resp)) as [[ae|]|e] eqn:E;
    try reflexivity.
  destruct (extract_api_error_shape _ _ E) as (c & t & m & s & ->).
  reflexivity.
Qed.

(** X19: a refusal (a status outside 200-299) whose body has no [error]
    key, in particular any body that is not JSON, is reported by status
    alone: the messages are the request log, the ERROR response log and
    the text "Failed to send message: HTTP <status>". *)
Theorem refusal_without_error_reports_status rt credentials tool_parameters w
    resp :
  inputs_present credentials tool_parameters = true ->
  requests_post rt (direct_request credentials tool_parameters) = Ok resp ->
  accepted resp = false ->
  (json_body resp = None
   \/ exists v, json_body resp = Some v /\ lacks_error v = true) ->
  (SendMessageTool._invoke rt credentials tool_parameters w).1
  = Ok [ request_log credentials tool_parameters;
         LogMessage (lit "send_response")
           (PDict [ (lit "status_code", PInt (status_code resp));
                    (lit "body", safe_json resp) ]) (Some ERROR);
         TextMessage (lit "Failed to send message: HTTP "
                      ++ str_int (status_code resp)) ].
Proof.
  intros H Hr Ha Hb. rewrite (refused_send_eq _ _ _ _ _ H Hr Ha).
  unfold response_log. rewrite Ha.
  assert (E : extract_api_error (safe_json resp) = Ok None).
  { unfold safe_json. destruct Hb as [->|(v & -> & Hv)]; [reflexivity|].
    unfold lacks_error in Hv. unfold extract_api_error.
    destruct v as [| | | | |d]; try reflexivity.
    apply negb_true_iff in Hv. rewrite Hv. reflexivity. }
  rewrite E. reflexivity.
Qed.

Lemma refusal_without_error_reports_status_witness :
  (SendMessageTool._invoke gateway_error_runtime valid_credentials send_hello
     empty_world).1
  = Ok [ request_log valid_credentials send_hello;
         LogMessage (lit "send_response")
           (PDict [ (lit "status_code", PInt 502);
                    (lit "body",
                     PDict [ (lit "text",
                              PStr (lit "<html>Bad Gateway</html>")) ]) ])
           (Some ERROR);
         TextMessage (lit "Failed to send message: HTTP " ++ str_int 502) ].
Proof.
  apply (refusal_without_error_reports_status gateway_error_runtime
           valid_credentials send_hello empty_world
           {| status_code := 502; json_body := None;
              text := lit "<html>Bad Gateway</html>" |}
           eq_refl eq_refl eq_refl (or_introl eq_refl)).
Defined.

(** X20: a refusal whose [error] is present but false (null, an empty
    object, an empty string, zero) still yields a structured error: all
    four of its fields are null and the hint is the generic one. *)
Theorem empty_error_gets_generic_hint rt credentials tool_parameters w resp d :
  inputs_present credentials tool_parameters = true ->
  requests_post rt (direct_request credentials tool_parameters) = Ok resp ->
  accepted resp = false ->
  json_body resp = Some (PDict d) ->
  has_key d (lit "error") = true ->
  truthy (field d "error") = false ->
  (SendMessageTool._invoke rt credentials tool_parameters w).1
  = Ok [ request_log credentials tool_parameters;
         LogMessage (lit "send_response")
           (PDict [ (lit "status_code", PInt (status_code resp));
                    (lit "body", PDict d) ]) (Some ERROR);
         JsonMessage (PDict [ (lit "error", api_error_of PNone PNone PNone PNone);
                              (lit "hint", PStr hint_generic) ]) ].
Proof.
  intros H Hr Ha Hb Hk Ht. rewrite (refused_send_eq _ _ _ _ _ H Hr Ha).
  unfold response_log. rewrite Ha. unfold safe_json. rewrite Hb.
  assert (E : extract_api_error (PDict d)
              = Ok (Some (api_error_of PNone PNone PNone PNone))).
  { unfold extract_api_error. rewrite Hk. cbn [py_get mbind result_bind].
    unfold field in Ht. rewrite (py_or_false _ _ Ht). reflexivity. }
  rewrite E. reflexivity.
Qed.

Lemma empty_error_gets_generic_hint_witness :
  (SendMessageTool._invoke (refusing_runtime PNone) valid_credentials send_hello
     empty_world).1
  = Ok [ request_log valid_credentials send_hello;
         LogMessage (lit "send_response")
           (PDict [ (lit "status_code", PInt 400);
                    (lit "body", PDict [ (lit "error", PNone) ]) ]) (Some ERROR);
         JsonMessage (PDict [ (lit "error", api_error_of PNone PNone PNone PNone);
                              (lit "hint", PStr hint_generic) ]) ].
Proof.
  apply (empty_error_gets_generic_hint (refusing_runtime PNone)
           valid_credentials send_hello empty_world
           {| status_code := 400;
              json_body := Some (PDict [ (lit "error", PNone) ]);
              text := [] |}
           [ (lit "error", PNone) ] eq_refl eq_refl eq_refl eq_refl eq_refl
           eq_refl).
Defined.

(** X21: a refusal whose [error] is a true value other than an object (a
    string, a number, an array) is not reported as an API error: reading
    its fields raises, and after the ERROR response log the tool yields
    the exception log and "Failed to send message due to exception". *)
Theorem non_mapping_error_is_exception rt credentials tool_parameters w resp d :
  inputs_present credentials tool_parameters = true ->
  requests_post rt (direct_request credentials tool_parameters) = Ok resp ->
  accepted resp = false ->
  json_body resp = Some (PDict d) ->
  has_key d (lit "error") = true ->
  truthy (field d "error") = true ->
  is_mapping (field d "error") = false ->
  (SendMessageTool._invoke rt credentials tool_parameters w).1
  = Ok [ request_log credentials tool_parameters;
         LogMessage (lit "send_response")
           (PDict [ (lit "status_code", PInt (status_code resp));
                    (lit "body", PDict d) ]) (Some ERROR);
         LogMessage (lit "exception")
           (PDict [ (lit "error", PStr (exn_message rt AttributeError)) ])
           (Some ERROR);
         TextMessage (lit "Failed to send message due to exception") ].
Proof.
  intros H Hr Ha Hb Hk Ht Hm. rewrite (refused_send_eq _ _ _ _ _ H Hr Ha).
  unfold response_log. rewrite Ha. unfold safe_json. rewrite Hb.
  assert (E : extract_api_error (PDict d) = Raise AttributeError).
  { unfold extract_api_error. rewrite Hk. cbn [py_get mbind result_bind].
    unfold field in Ht, Hm. rewrite (py_or_true _ _ Ht).
    destruct (default PNone (assoc d (lit "error"))); try reflexivity.
    discriminate. }
  rewrite E. reflexivity.
Qed.

Lemma non_mapping_error_is_exception_witness :
  (SendMessageTool._invoke (refusing_runtime (PStr (lit "Bad request")))
     valid_credentials send_hello empty_world).1
  = Ok [ request_log valid_credentials send_hello;
         LogMessage (lit "send_response")
           (PDict [ (lit "status_code", PInt 400);
                    (lit "body",
                     PDict [ (lit "error", PStr (lit "Bad request")) ]) ])
           (Some ERROR);
         LogMessage (lit "exception")
           (PDict [ (lit "error", PStr (lit "error")) ]) (Some ERROR);
         TextMessage (lit "Failed to send message due to exception") ].
Proof.
  apply (non_mapping_error_is_exception (refusing_runtime (PStr (lit "Bad request")))
           valid_credentials send_hello empty_world
           {| status_code := 400;
              json_body := Some (PDict [ (lit "error", PStr (lit "Bad request")) ]);
              text := [] |}
           [ (lit "error", PStr (lit "Bad request")) ]
           eq_refl eq_refl eq_refl eq_refl eq_refl eq_refl eq_refl).
Defined.

(** ** The credential validator and the tool *)

Lemma exception_messages_not_credentials rt e :
  Forall (fun m => is_credentials_error m = false) (exception_messages rt e).
Proof. repeat constructor; other_text. Qed.

Lemma after_response_not_credentials rt to resp :
  Forall (fun m => is_credentials_error m = false) (after_response rt to resp).
Proof.
  unfold after_response.
  destruct ((200 <=? status_code resp)%Z && (status_code resp <? 300)%Z).
  - repeat constructor; try other_text.
    unfold summary. destruct (wa_message_id (safe_json resp)); cbn; other_text.
  - destruct (extract_api_error (safe_json resp)) as [[ae|]|e].
    + destruct (truthy ae); [destruct (suggest_fix ae)|].
      * repeat constructor; other_text.
      * constructor; [other_text | apply exception_messages_not_credentials].
      * repeat constructor; other_text.
    + repeat constructor; other_text.
    + constructor; [other_text | apply exception_messages_not_credentials].
Qed.

(** X22: the validator and the tool agree on what usable credentials are.
    Credentials that [_validate_credentials] rejects make every direct
    send end in the configuration error, without any call; with
    credentials that it accepts, no message of the tool is that error. *)
Theorem validator_and_tool_agree rt credentials tool_parameters w :
  match WhatsAppToolProvider._validate_credentials credentials with
  | ValueError _ =>
      exists details,
        SendMessageTool._invoke rt credentials tool_parameters w
        = (Ok [ LogMessage (lit "credentials") details (Some ERROR);
                TextMessage
                  (lit "Configuration error: missing WhatsApp credentials") ],
           w)
  | Accepted _ =>
      exists messages w',
        SendMessageTool._invoke rt credentials tool_parameters w
        = (Ok messages, w')
        /\ Forall (fun m => is_credentials_error m = false) messages
  end.
Proof.
  unfold WhatsAppToolProvider._validate_credentials.
  destruct (nonempty (or_empty_strip (cred_access_token credentials))) eqn:Ea;
    cbn [negb].
  2:{ unfold SendMessageTool._invoke. rewrite Ea. eexists. reflexivity. }
  destruct (nonempty (or_empty_strip (cred_phone_number_id credentials))) eqn:Ep;
    cbn [negb].
  2:{ unfold SendMessageTool._invoke. rewrite Ea, Ep. eexists. reflexivity. }
  destruct (inputs_present credentials tool_parameters) eqn:H.
  - rewrite (direct_send_eq _ _ _ _ H). do 2 eexists. split; [reflexivity|].
    constructor; [other_text|].
    destruct (requests_post rt (direct_request credentials tool_parameters)).
    + apply after_response_not_credentials.
    + apply exception_messages_not_credentials.
  - destruct (direct_send_missing rt _ _ w H) as (details & message & E).
    rewrite Ea, Ep in E. cbn [andb] in E. rewrite E.
    do 2 eexists. split; [reflexivity|].
    constructor; [other_text|]. constructor; [|constructor].
    revert E. unfold SendMessageTool._invoke. rewrite Ea, Ep. cbn [negb orb].
    destruct (negb (nonempty (or_empty_strip (to tool_parameters)))
              || negb (nonempty (or_empty_strip (text_param tool_parameters)))).
    + intros [= _ <-]. other_text.
    + unfold inputs_present in H. rewrite Ea, Ep in H. cbn [andb] in H.
      unfold try_except, mbind, M_bind, http_post.
      destruct (requests_post rt _); intros [= _ _ _]; discriminate.
Qed.

(** X23: the credentials that the validator returns are the stripped
    ones: both are non-empty and without whitespace at either end,
    validating them again returns them unchanged, and the tool behaves
    with them exactly as with the credentials as entered. *)
Theorem accepted_credentials_are_normal credentials normal :
  WhatsAppToolProvider._validate_credentials credentials = Accepted normal ->
  WhatsAppToolProvider._validate_credentials normal = Accepted normal
  /\ (exists access_token phone_number_id,
        normal = {| cred_access_token := Some access_token;
                    cred_phone_number_id := Some phone_number_id |}
        /\ access_token <> [] /\ trimmed access_token
        /\ phone_number_id <> [] /\ trimmed phone_number_id)
  /\ forall rt tool_parameters w,
       SendMessageTool._invoke rt normal tool_parameters w
       = SendMessageTool._invoke rt credentials tool_parameters w.
Proof.
  unfold WhatsAppToolProvider._validate_credentials.
  destruct (nonempty (or_empty_strip (cred_access_token credentials))) eqn:Ea;
    cbn [negb]; [|discriminate].
  destruct (nonempty (or_empty_strip (cred_phone_number_id credentials))) eqn:Ep;
    cbn [negb]; [|discriminate].
  intros [= <-]. cbn [cred_access_token cred_phone_number_id].
  rewrite !or_empty_strip_fixed, Ea, Ep. cbn [negb].
  split; [reflexivity|]. split.
  - do 2 eexists. split; [reflexivity|].
    unfold or_empty_strip.
    split; [intros E; unfold or_empty_strip in Ea; rewrite E in Ea; discriminate|].
    split; [apply strip_trimmed|].
    split; [intros E; unfold or_empty_strip in Ep; rewrite E in Ep; discriminate|].
    apply strip_trimmed.
  - intros rt tool_parameters w. unfold SendMessageTool._invoke.
    cbn [cred_access_token cred_phone_number_id].
    rewrite !or_empty_strip_fixed. reflexivity.
Qed.

Lemma accepted_credentials_are_normal_witness :
  WhatsAppToolProvider._validate_credentials valid_credentials
  = Accepted valid_credentials
  /\ (exists access_token phone_number_id,
        valid_credentials = {| cred_access_token := Some access_token;
                               cred_phone_number_id := Some phone_number_id |}
        /\ access_token <> [] /\ trimmed access_token
        /\ phone_number_id <> [] /\ trimmed phone_number_id)
  /\ forall rt tool_parameters w,
       SendMessageTool._invoke rt valid_credentials tool_parameters w
       = SendMessageTool._invoke rt padded_credentials tool_parameters w.
Proof.
  apply (accepted_credentials_are_normal padded_credentials valid_credentials
           eq_refl).
Defined.
